(** * Books crawler: crawl orchestration, fingerprints and change detection

    A shallow embedding of the Python sources

      - [crawler/scraper.py]           (BookScraper)
      - [crawler/storage.py]           (BookStorage.generate_content_hash)
      - [scheduler/change_detector.py] (ChangeDetector)
      - [api/models.py]                (CrawlStatus, CrawlProgress, ChangeLog)
      - [utilities/config.py]          (Settings)

    together with the properties stated about them.  Coroutines are modelled
    as state-passing functions over the scraper object and the database; the
    collaborators the code awaits (HTTP server, HTML parser, MongoDB) are
    oracles that the functions take as arguments. *)

From Stdlib Require Import ZArith Lia Ascii String.
From Equations Require Import Equations.
From stdpp Require Import gmap strings list sorting pretty.

Local Open Scope list_scope.

(* stdpp freezes string concatenation under [simpl]; the proofs about JSON
   text below need it to compute on literals. *)
#[local] Arguments String.append _ _ : simpl nomatch.

(** ** Python values and dictionaries *)

Module Py.

(** The values the [Book] schema allows for the fields read below:
    [None], [str] and (finite) [float]; the integer fields of a book
    ([num_reviews], [rating]) are read by none of the functions below.
    A character of a string stands for the code point of the same number
    (U+0000 to U+00FF).  A finite float is identified by the text CPython's
    [float.__repr__] prints for it (the shortest decimal that reads back as
    the same binary64 value): [10.99] is [PyFloat "10.99"].  This is also
    the text [json.dumps] emits.  The float that is not a number is
    [PyFloat "nan"]; it is told apart in comparisons only, and is outside
    the values the JSON text is defined for ([value_ok]). *)
Inductive pyval : Type :=
  | PyNone
  | PyStr (s : string)
  | PyFloat (repr : string).

#[global] Instance pyval_eq_dec : EqDecision pyval.
Proof. solve_decision. Defined.

(** The two zeros are the only distinct finite floats that compare equal. *)
Definition float_is_zero (r : string) : bool :=
  bool_decide (r = "0.0") || bool_decide (r = "-0.0").

(** The one float that is not finite and not equal to itself: its
    [repr] is [nan]. *)
Definition float_is_nan (r : string) : bool := bool_decide (r = "nan").

(** Python's [==] on these values. *)
Definition py_eq (a b : pyval) : bool :=
  match a, b with
  | PyNone, PyNone => true
  | PyStr s, PyStr t => bool_decide (s = t)
  | PyFloat r, PyFloat q =>
      negb (float_is_nan r) && negb (float_is_nan q)
      && (bool_decide (r = q) || (float_is_zero r && float_is_zero q))
  | _, _ => false
  end.

(** A value that is equal to itself: every one but the float [nan]. *)
Definition self_equal (v : pyval) : Prop := v ≠ PyFloat "nan".

(** Python's [!=]. *)
Definition py_ne (a b : pyval) : bool := negb (py_eq a b).

(** [str(v)]. *)
Definition py_str (v : pyval) : string :=
  match v with
  | PyNone => "None"
  | PyStr s => s
  | PyFloat r => r
  end.

(** A [dict] with string keys, items in insertion order. *)
Definition pydict : Type := list (string * pyval).

(** [d.get(k, dflt)] *)
Fixpoint dict_get_default (k : string) (dflt : pyval) (d : pydict) : pyval :=
  match d with
  | [] => dflt
  | (k', v) :: rest =>
      if bool_decide (k' = k) then v else dict_get_default k dflt rest
  end.

(** [d.get(k)] *)
Definition dict_get (k : string) (d : pydict) : pyval :=
  dict_get_default k PyNone d.

(** [d[k] = v]: an existing key keeps its position. *)
Fixpoint dict_set (k : string) (v : pyval) (d : pydict) : pydict :=
  match d with
  | [] => [(k, v)]
  | (k', v') :: rest =>
      if bool_decide (k' = k) then (k, v) :: rest
      else (k', v') :: dict_set k v rest
  end.






End Py.

Import Py.

(** ** [api/models.py] *)

Module Models.

Inductive CrawlStatus : Type := SUCCESS | FAILED | PARTIAL.

#[global] Instance CrawlStatus_eq_dec : EqDecision CrawlStatus.
Proof. solve_decision. Defined.

(** [CrawlStatus.value] *)
Definition CrawlStatus_value (s : CrawlStatus) : string :=
  match s with
  | SUCCESS => "success"
  | FAILED => "failed"
  | PARTIAL => "partial"
  end.

Inductive ChangeType : Type :=
  | NEW_BOOK
  | PRICE_CHANGE
  | AVAILABILITY_CHANGE
  | DESCRIPTION_CHANGE
  | OTHER.

#[global] Instance ChangeType_eq_dec : EqDecision ChangeType.
Proof. solve_decision. Defined.

(** [ChangeLog]; [detected_at] defaults to the clock reading at
    construction. *)
Record ChangeLog : Type := mkChangeLog {
  book_id : string;
  book_name : string;
  change_type : ChangeType;
  old_value : option pydict;
  new_value : pydict;
  detected_at : Z
}.

#[global] Instance ChangeLog_eq_dec : EqDecision ChangeLog.
Proof. solve_decision. Defined.

(** [CrawlProgress]; [timestamp] defaults to the clock reading at
    construction. *)
Record CrawlProgress : Type := mkCrawlProgress {
  timestamp : Z;
  total_pages : nat;
  completed_pages : nat;
  failed_pages : list string;
  status : CrawlStatus
}.

(** [CrawlMetadata] *)
Record CrawlMetadata : Type := mkCrawlMetadata {
  cm_timestamp : Z;
  cm_status : CrawlStatus;
  source_url : string;
  error_message : option string
}.

(** [Book]: the ten parsed fields as the parser's dictionary, and the
    three attributes [scrape_book] adds. *)
Record Book : Type := mkBook {
  book_fields : pydict;
  content_hash : string;
  crawl_metadata : CrawlMetadata;
  html_snapshot_id : option string
}.

(** The constructor call [ChangeLog(book_id=..., book_name=..., ...)]:
    pydantic rejects a [book_name] that is not a [str]. *)
Definition ChangeLog_new (now : Z) (id : string) (name : pyval)
    (ct : ChangeType) (old new : pydict) : option ChangeLog :=
  match name with
  | PyStr s => Some (mkChangeLog id s ct (Some old) new now)
  | _ => None
  end.

End Models.

Import Models.

(** ** [utilities/database.py]: the MongoDB collections the core uses

    [books] has a unique index on ["url"] ([Database.create_indexes]), so
    the collection is a finite map from a document's url to the document.
    [change_log] is append-only.  [crawl_progress] holds at most one
    document: [save_crawl_progress] updates it with the empty filter and
    [upsert=True]. *)

Record Database : Type := mkDatabase {
  books : gmap string Book;
  change_log : list ChangeLog;
  crawl_progress : option CrawlProgress
}.

(** ** [scheduler/change_detector.py] *)

Module ChangeDetector.

(** [ChangeDetector.detect_changes(old_book, new_book)].  [None] stands for
    the [ValidationError] raised by a [ChangeLog(...)] call. *)
Definition detect_changes (now : Z) (old_book new_book : pydict)
    : option (list ChangeLog) :=
  let changes : list ChangeLog := [] in
  let book_id := py_str (dict_get_default "_id" (PyStr "") old_book) in
  let book_name := dict_get_default "name" (PyStr "Unknown") new_book in
  (* Check price changes *)
  changes ←
    (if py_ne (dict_get "price_incl_tax" old_book)
              (dict_get "price_incl_tax" new_book)
     then
       c ← ChangeLog_new now book_id book_name PRICE_CHANGE
              [("price_incl_tax", dict_get "price_incl_tax" old_book);
               ("price_excl_tax", dict_get "price_excl_tax" old_book)]
              [("price_incl_tax", dict_get "price_incl_tax" new_book);
               ("price_excl_tax", dict_get "price_excl_tax" new_book)];
       Some (changes ++ [c])
     else Some changes);
  (* Check availability changes *)
  changes ←
    (if py_ne (dict_get "availability" old_book)
              (dict_get "availability" new_book)
     then
       c ← ChangeLog_new now book_id book_name AVAILABILITY_CHANGE
              [("availability", dict_get "availability" old_book)]
              [("availability", dict_get "availability" new_book)];
       Some (changes ++ [c])
     else Some changes);
  (* Check description changes *)
  changes ←
    (if py_ne (dict_get "description" old_book)
              (dict_get "description" new_book)
     then
       c ← ChangeLog_new now book_id book_name DESCRIPTION_CHANGE
              [("description", dict_get "description" old_book)]
              [("description", dict_get "description" new_book)];
       Some (changes ++ [c])
     else Some changes);
  Some changes.

(** [ChangeDetector.detect_new_books(current_urls, stored_urls)] *)
Definition detect_new_books (current_urls stored_urls : gset string)
    : list string :=
  let new_urls := current_urls ∖ stored_urls in
  elements new_urls.

(** The summary dictionary [run_change_detection] returns, one field per
    key. *)
Record Summary : Type := mkSummary {
  summary_timestamp : Z;
  summary_total_books_checked : nat;
  summary_new_books : nat;
  summary_changes_detected : nat;
  summary_change_types : gmap string nat
}.

(** [ChangeType.value] *)
Definition ChangeType_value (c : ChangeType) : string :=
  match c with
  | NEW_BOOK => "new_book"
  | PRICE_CHANGE => "price_change"
  | AVAILABILITY_CHANGE => "availability_change"
  | DESCRIPTION_CHANGE => "description_change"
  | OTHER => "other"
  end.

(** [ChangeDetector.run_change_detection()]: returns the summary and the
    database it leaves behind. *)
Definition run_change_detection (now : Z) (db : Database)
    : Summary * Database :=
  (* Get all stored books *)
  let stored_books :=
    map_fold (λ url book acc, <[url := book]> acc) (∅ : gmap string Book)
             (books db) in
  let stored_urls : gset string := dom stored_books in
  let changes_detected : list ChangeLog := [] in
  let new_books_count := 0 in
  (* Store changes in database *)
  let db :=
    if bool_decide (changes_detected ≠ [])
    then foldl (λ d change,
                  mkDatabase (books d) (change_log d ++ [change])
                             (crawl_progress d))
               db changes_detected
    else db in
  let summary :=
    mkSummary now (size stored_urls) new_books_count
              (length changes_detected) ∅ in
  (* Count change types *)
  let summary :=
    foldl (λ s change,
             let change_type := ChangeType_value (change_type change) in
             mkSummary (summary_timestamp s) (summary_total_books_checked s)
                       (summary_new_books s) (summary_changes_detected s)
                       (<[change_type :=
                            default 0 (summary_change_types s !! change_type)
                            + 1]>
                          (summary_change_types s)))
          summary changes_detected in
  (summary, db).

(** [old_book] of [tests/test_scheduler.py], and a new version of it in
    which the price without tax alone has changed. *)
Definition old_book : pydict :=
  [ ("_id", PyStr "123"); ("name", PyStr "Test Book");
    ("price_incl_tax", PyFloat "10.99"); ("price_excl_tax", PyFloat "9.99");
    ("availability", PyStr "In stock"); ("description", PyStr "Test") ].

Definition new_book_excl_tax_changed : pydict :=
  [ ("name", PyStr "Test Book");
    ("price_incl_tax", PyFloat "10.99"); ("price_excl_tax", PyFloat "8.99");
    ("availability", PyStr "In stock"); ("description", PyStr "Test") ].

(** [new_book] of [test_detect_price_change]. *)
Definition new_book_prices_changed : pydict :=
  [ ("name", PyStr "Test Book");
    ("price_incl_tax", PyFloat "12.99"); ("price_excl_tax", PyFloat "11.99");
    ("availability", PyStr "In stock"); ("description", PyStr "Test") ].

(** The events of one category. *)
Definition events_of (ct : ChangeType) (changes : list ChangeLog)
    : list ChangeLog :=
  filter (λ c, change_type c = ct) changes.

End ChangeDetector.

(** ** [hashlib.sha256]: SHA-256 as in FIPS 180-4

    Words are integers in [0, 2^32); a message is a list of byte values. *)

Module Sha256.

Local Open Scope Z_scope.

Definition add32 (x y : Z) : Z := (x + y) mod 2 ^ 32.

Definition rotr (n x : Z) : Z :=
  Z.lor (Z.shiftr x n) (Z.shiftl x (32 - n) mod 2 ^ 32).

Definition shr (n x : Z) : Z := Z.shiftr x n.

Definition Ch (x y z : Z) : Z :=
  Z.lxor (Z.land x y) (Z.land (Z.lxor x 0xffffffff) z).

Definition Maj (x y z : Z) : Z :=
  Z.lxor (Z.lxor (Z.land x y) (Z.land x z)) (Z.land y z).

Definition Sigma0 (x : Z) : Z :=
  Z.lxor (Z.lxor (rotr 2 x) (rotr 13 x)) (rotr 22 x).

Definition Sigma1 (x : Z) : Z :=
  Z.lxor (Z.lxor (rotr 6 x) (rotr 11 x)) (rotr 25 x).

Definition sigma0 (x : Z) : Z :=
  Z.lxor (Z.lxor (rotr 7 x) (rotr 18 x)) (shr 3 x).

Definition sigma1 (x : Z) : Z :=
  Z.lxor (Z.lxor (rotr 17 x) (rotr 19 x)) (shr 10 x).

(** The constants of the standard are the first 32 bits of the fractional
    parts of the cube roots (for [K]) and of the square roots (for [H0]) of
    the first primes. *)
Definition is_prime (n : nat) : bool :=
  forallb (λ d, negb (n mod d =? 0)%nat) (seq 2 (n - 2)).

Definition primes : list Z :=
  Z.of_nat <$> filter (λ n, is_prime n = true) (seq 2 310).

(** The integer cube root of [n], built bit by bit from bit [bits - 1]
    down. *)
Fixpoint cube_root (bits : nat) (n r : Z) : Z :=
  match bits with
  | O => r
  | S b =>
      let c := r + 2 ^ Z.of_nat b in
      cube_root b n (if c * c * c <=? n then c else r)
  end.

Definition cube_root_fraction (p : Z) : Z :=
  cube_root 40 (p * 2 ^ 96) 0 mod 2 ^ 32.

Definition square_root_fraction (p : Z) : Z :=
  Z.sqrt (p * 2 ^ 64) mod 2 ^ 32.

Definition K : list Z :=
  Eval vm_compute in cube_root_fraction <$> take 64 primes.

(** The eight chaining words. *)
Record words8 : Type := W8 {
  wa : Z; wb : Z; wc : Z; wd : Z; we : Z; wf : Z; wg : Z; wh : Z
}.

Definition H0 : words8 :=
  Eval vm_compute in
    match square_root_fraction <$> take 8 primes with
    | [a; b; c; d; e; f; g; h] => W8 a b c d e f g h
    | _ => W8 0 0 0 0 0 0 0 0
    end.


(** Append [n] further words to the message schedule [w]. *)
Fixpoint extend (n : nat) (w : list Z) : list Z :=
  match n with
  | O => w
  | S n' =>
      let back i := nth (length w - i) w 0 in
      extend n'
        (w ++ [add32 (add32 (sigma1 (back 2%nat)) (back 7%nat))
                     (add32 (sigma0 (back 15%nat)) (back 16%nat))])
  end.

Definition round (s : words8) (kw : Z * Z) : words8 :=
  let '(W8 a b c d e f g h) := s in
  let T1 :=
    add32 (add32 (add32 h (Sigma1 e)) (add32 (Ch e f g) (fst kw))) (snd kw) in
  let T2 := add32 (Sigma0 a) (Maj a b c) in
  W8 (add32 T1 T2) a b c (add32 d T1) e f g.

(** One block of sixteen message words. *)
Definition compress (hs : words8) (m : list Z) : words8 :=
  let '(W8 a b c d e f g h) := foldl round hs (zip K (extend 48 m)) in
  W8 (add32 (wa hs) a) (add32 (wb hs) b) (add32 (wc hs) c) (add32 (wd hs) d)
     (add32 (we hs) e) (add32 (wf hs) f) (add32 (wg hs) g) (add32 (wh hs) h).

(** Big-endian value of a list of bytes. *)
Definition be_value (bytes : list Z) : Z :=
  foldl (λ acc b, acc * 256 + b) 0 bytes.

(** The [n] big-endian bytes of [x]. *)
Fixpoint be_bytes (n : nat) (x : Z) : list Z :=
  match n with
  | O => []
  | S n' => be_bytes n' (x / 256) ++ [x mod 256]
  end.

(** Cut [l] into [n] pieces of [k] elements. *)
Fixpoint chunks {A} (k n : nat) (l : list A) : list (list A) :=
  match n with
  | O => []
  | S n' => take k l :: chunks k n' (drop k l)
  end.

Definition pad (msg : list Z) : list Z :=
  let len := Z.of_nat (length msg) in
  msg ++ [0x80] ++ replicate (Z.to_nat ((55 - len) mod 64)) 0
      ++ be_bytes 8 (8 * len).

Definition block_words (block : list Z) : list Z :=
  be_value <$> chunks 4 16 block.

Definition sha256_words (msg : list Z) : words8 :=
  let p := pad msg in
  foldl compress H0 (block_words <$> chunks 64 (length p / 64) p).

(** The digest as a 256-bit integer. *)
Definition sha256_int (msg : list Z) : Z :=
  let '(W8 a b c d e f g h) := sha256_words msg in
  foldl (λ acc w, acc * 2 ^ 32 + w) 0 [a; b; c; d; e; f; g; h].

Definition hex_digit (d : Z) : ascii :=
  default "0"%char
    (list_ascii_of_string "0123456789abcdef" !! Z.to_nat d).

(** [n] lowercase hexadecimal digits of [x], most significant first. *)
Fixpoint hex (n : nat) (x : Z) : string :=
  match n with
  | O => ""
  | S n' => hex n' (x / 16) +:+ String (hex_digit (x mod 16)) ""
  end.

(** [hashlib.sha256(msg).hexdigest()] *)
Definition hexdigest (msg : list Z) : string := hex 64 (sha256_int msg).

(** [s.encode()] for text in the ASCII range, which is all that
    [json.dumps] emits with its default [ensure_ascii=True]. *)
Definition encode (s : string) : list Z :=
  (λ c, Z.of_N (N_of_ascii c)) <$> list_ascii_of_string s.

End Sha256.

(** ** [json.dumps(obj, sort_keys=True)] on a flat dictionary *)

Module Json.

Definition dquote : ascii := "034"%char.
Definition backslash : ascii := "092"%char.

(** Two lowercase hexadecimal digits of a character code. *)
Definition hex2 (c : ascii) : string :=
  Sha256.hex 2 (Z.of_N (N_of_ascii c)).

(** One character of [py_encode_basestring_ascii]: the quote, the
    backslash and the characters outside [' '..'~'] are escaped. *)
Definition escape_char (c : ascii) : string :=
  if bool_decide (c = dquote) then String backslash (String dquote "")
  else if bool_decide (c = backslash) then String backslash (String backslash "")
  else if bool_decide (c = "010"%char) then String backslash "n"
  else if bool_decide (c = "013"%char) then String backslash "r"
  else if bool_decide (c = "009"%char) then String backslash "t"
  else if bool_decide (c = "012"%char) then String backslash "f"
  else if bool_decide (c = "008"%char) then String backslash "b"
  else if Ascii.leb " " c && Ascii.leb c "~" then String c ""
  else String backslash ("u00" +:+ hex2 c).

Fixpoint escape (s : string) : string :=
  match s with
  | EmptyString => ""
  | String c rest => escape_char c +:+ escape rest
  end.

(** A [str] between quotes. *)
Definition json_string (s : string) : string :=
  String dquote (escape s +:+ String dquote "").

Definition json_value (v : pyval) : string :=
  match v with
  | PyNone => "null"
  | PyStr s => json_string s
  | PyFloat r => r
  end.

(** Items are compared by key, as code-point strings. *)
Definition key_le (x y : string * string) : Prop :=
  Is_true (String.leb x.1 y.1).

#[global] Instance key_le_dec x y : Decision (key_le x y).
Proof. unfold key_le. apply _. Defined.

(** The items ["key": value], joined by [", "]. *)
Fixpoint json_items (items : list (string * string)) : string :=
  match items with
  | [] => ""
  | [(k, v)] => json_string k +:+ ": " +:+ v
  | (k, v) :: rest => json_string k +:+ ": " +:+ v +:+ ", " +:+ json_items rest
  end.

Definition json_dumps_sort_keys (d : pydict) : string :=
  "{" +:+ json_items (merge_sort key_le (prod_map id json_value <$> d)) +:+ "}".




End Json.

(** ** [crawler/storage.py] *)

Module Storage.


(** [BookStorage.generate_content_hash(book_data)] *)
Definition relevant_fields (book_data : pydict) : pydict :=
  [ ("name", dict_get "name" book_data);
    ("price_incl_tax", dict_get "price_incl_tax" book_data);
    ("price_excl_tax", dict_get "price_excl_tax" book_data);
    ("availability", dict_get "availability" book_data);
    ("description", dict_get "description" book_data) ].



(** The deterministic JSON string: the local [json_str]. *)
Definition json_str (book_data : pydict) : string :=
  Json.json_dumps_sort_keys (relevant_fields book_data).

Definition generate_content_hash (book_data : pydict) : string :=
  Sha256.hexdigest (Sha256.encode (json_str book_data)).

(** [book_data1] and [book_data2] of
    [tests/test_crawler.py::test_content_hash_changes_with_price]. *)
Definition book_data1 : pydict :=
  [ ("name", PyStr "Test Book"); ("price_incl_tax", PyFloat "10.99");
    ("price_excl_tax", PyFloat "9.99"); ("availability", PyStr "In stock");
    ("description", PyStr "Test description") ].

Definition book_data2 : pydict :=
  [ ("name", PyStr "Test Book"); ("price_incl_tax", PyFloat "12.99");
    ("price_excl_tax", PyFloat "11.99"); ("availability", PyStr "In stock");
    ("description", PyStr "Test description") ].




End Storage.

(** ** [utilities/config.py] *)

Module Config.

Record Settings : Type := mkSettings {
  crawler_concurrency : nat;
  crawler_max_retries : nat;
  crawler_timeout_seconds : nat;
  base_url : string
}.

(** [Settings()] when the environment sets nothing: the defaults. *)
Definition settings : Settings :=
  mkSettings 10 3 30 "https://books.toscrape.com".

End Config.

(** ** [crawler/scraper.py] *)

Module Scraper.

(** What one [client.get(url)] followed by [raise_for_status()] does: the
    text of the response, an [httpx.HTTPError] or [httpx.TimeoutException],
    or an exception of another class. *)
Inductive http_result : Type :=
  | HttpOk (text : string)
  | HttpError (e : string)
  | HttpRaises.

(** The server as one coroutine sees it: the result of the request for
    [url] made after [retries] failed attempts. *)
Definition Client : Type := string → nat → http_result.

(** What a coroutine does to the outside, in order.  Log records are
    kept for [fetch_with_retry] only. *)
Inductive effect : Type :=
  | Acquire
  | Release
  | HttpGet (url : string)
  | Sleep (seconds : nat)
  | LogWarning (url : string) (wait_time attempt max_retries : nat) (e : string)
  | LogError (url : string) (max_retries : nat) (e : string).

#[global] Instance effect_eq_dec : EqDecision effect.
Proof. solve_decision. Defined.

(** The result of a call: a value, or an exception that leaves it. *)
Inductive result (A : Type) : Type :=
  | Returns (a : A)
  | Raises.
Arguments Returns {A} a.
Arguments Raises {A}.

(** The [BookScraper] object. *)
Record BookScraper : Type := mkBookScraper {
  base_url : string;
  max_retries : nat;
  timeout : nat;
  concurrency : nat;
  total_books : nat;
  completed_books : nat;
  failed_urls : gset string
}.

(** [BookScraper.__init__] *)
Definition BookScraper_init (s : Config.Settings) : BookScraper :=
  mkBookScraper (Config.base_url s) (Config.crawler_max_retries s)
                (Config.crawler_timeout_seconds s)
                (Config.crawler_concurrency s) 0 0 ∅.

(** [fetch_with_retry(client, url, retries)]: the value returned
    ([Some html] or [None]) and the effects, in order.  The permit is taken
    and given back by the [async with] block around the request; the
    [except] clause runs after the block has been left. *)
Equations fetch_with_retry (self : BookScraper) (client : Client)
    (url : string) (retries : nat)
    : result (option string) * list effect
    by wf (max_retries self - retries) lt :=
  fetch_with_retry self client url retries with client url retries := {
    | HttpOk text =>
        (Returns (Some text), [Acquire; HttpGet url; Release])
    | HttpRaises =>
        (Raises, [Acquire; HttpGet url; Release])
    | HttpError e with decide (retries < max_retries self) => {
      | left _ =>
          (* Exponential backoff: 2^retries seconds *)
          let wait_time := 2 ^ retries in
          let rest := fetch_with_retry self client url (retries + 1) in
          (rest.1,
           [Acquire; HttpGet url; Release;
            LogWarning url wait_time (retries + 1) (max_retries self) e;
            Sleep wait_time] ++ rest.2)
      | right _ =>
          (Returns None,
           [Acquire; HttpGet url; Release;
            LogError url (max_retries self) e]) } }.
Next Obligation. lia. Qed.

(** [not html] for an [Optional[str]] *)
Definition not_html (html : option string) : bool :=
  match html with
  | None => true
  | Some text => bool_decide (text = "")
  end.

(** Everything outside the orchestration code.  The first five fields are
    the pure collaborators ([urllib], [BookParser], pydantic's validation of
    the [Book] constructor call).  The others record what the outside did during
    one run: whether MongoDB accepted the connection, the responses of the
    server during the [k]-th listing fetch and during the [i]-th item task,
    what the blob store and the database answered to that task, whether the
    [n]-th progress write succeeded, and the clock readings. *)
Record World : Type := mkWorld {
  urljoin : string → string → string;
  extract_book_links : string → string → list string;
  extract_next_page_url : string → string → option string;
  parse_book_details : string → string → string → option pydict;
  Book_validates : pydict → bool;
  connect_ok : bool;
  page_client : nat → Client;
  item_client : nat → Client;
  store_html_snapshot : nat → option string;
  upsert_ok : nat → bool;
  save_ok : nat → bool;
  item_clock : nat → Z;
  clock : nat → Z
}.

(** [self.failed_urls.add(url)] *)
Definition failed_urls_add (self : BookScraper) (url : string) : BookScraper :=
  mkBookScraper (base_url self) (max_retries self) (timeout self)
                (concurrency self) (total_books self) (completed_books self)
                ({[url]} ∪ failed_urls self).

(** [self.completed_books += 1] *)
Definition completed_books_incr (self : BookScraper) : BookScraper :=
  mkBookScraper (base_url self) (max_retries self) (timeout self)
                (concurrency self) (total_books self)
                (completed_books self + 1) (failed_urls self).

(** [self.total_books = n] *)
Definition total_books_set (self : BookScraper) (n : nat) : BookScraper :=
  mkBookScraper (base_url self) (max_retries self) (timeout self)
                (concurrency self) n (completed_books self)
                (failed_urls self).

(** [storage.upsert_book(book)]: the update keyed by the url, when the
    database accepts it. *)
Definition upsert_book (ok : bool) (db : Database) (url : string) (book : Book)
    : bool * Database :=
  if ok
  then (true, mkDatabase (<[url := book]> (books db)) (change_log db)
                         (crawl_progress db))
  else (false, db).

(** [scrape_book(client, book_url)] run as the [i]-th task.  Here and in
    [pages_loop] a fetch is taken by the value it returns; what it does to
    the permits is the subject of [Semaphore].  A fetch returns only if it
    gets a permit, so these definitions describe a scraper with
    [concurrency >= 1]: with no permit at all the first fetch waits for
    ever and the crawl returns nothing. *)
Definition scrape_book (w : World) (i : nat) (self : BookScraper)
    (db : Database) (book_url : string)
    : BookScraper * Database * option Book :=
  match (fetch_with_retry self (item_client w i) book_url 0).1 with
  | Raises =>
      (* except Exception *)
      (failed_urls_add self book_url, db, None)
  | Returns html =>
      if not_html html then (failed_urls_add self book_url, db, None)
      else
        match parse_book_details w (default "" html) (base_url self) book_url
        with
        | None => (failed_urls_add self book_url, db, None)
        | Some book_data =>
            let content_hash := Storage.generate_content_hash book_data in
            let crawl_metadata :=
              mkCrawlMetadata (item_clock w i) SUCCESS book_url None in
            let html_snapshot_id := store_html_snapshot w i in
            if Book_validates w book_data then
              let book :=
                mkBook book_data content_hash crawl_metadata html_snapshot_id
              in
              let '(success, db) := upsert_book (upsert_ok w i) db book_url book in
              if success
              then (completed_books_incr self, db, Some book)
              else (failed_urls_add self book_url, db, None)
            else
              (* except Exception *)
              (failed_urls_add self book_url, db, None)
        end
  end.

(** [while current_url: ...] of [get_all_book_urls], entered for the
    [k]-th time.  [None] when [fuel] iterations did not end the loop. *)
Fixpoint pages_loop (w : World) (self : BookScraper) (fuel k : nat)
    (current_url : option string) (all_book_urls : list string)
    : option (result (list string)) :=
  match current_url with
  | None => Some (Returns all_book_urls)
  | Some url =>
      if bool_decide (url = "") then Some (Returns all_book_urls)
      else
        match fuel with
        | O => None
        | S fuel' =>
            match (fetch_with_retry self (page_client w k) url 0).1 with
            | Raises => Some Raises
            | Returns html =>
                if not_html html then Some (Returns all_book_urls)
                else
                  let book_urls :=
                    extract_book_links w (default "" html) url in
                  let next_url :=
                    extract_next_page_url w (default "" html) url in
                  pages_loop w self fuel' (S k) next_url
                             (all_book_urls ++ book_urls)
            end
        end
  end.

(** [get_all_book_urls(client)] *)
Definition get_all_book_urls (w : World) (self : BookScraper) (fuel : nat)
    : option (result (list string)) :=
  pages_loop w self fuel 0
             (Some (urljoin w (base_url self) "catalogue/page-1.html")) [].

(** [range(start, stop, step)] *)
Definition py_range (start stop step : nat) : list nat :=
  (λ k, start + k * step) <$> seq 0 ((stop - start + step - 1) / step).

(** [l[i:j]] *)
Definition py_slice {A} (l : list A) (i j : nat) : list A :=
  take (j - i) (drop i l).

(** The progress snapshot built from the scraper's counters. *)
Definition make_progress (now : Z) (self : BookScraper) : CrawlProgress :=
  mkCrawlProgress now (total_books self) (completed_books self)
                  (elements (failed_urls self))
                  (if bool_decide (failed_urls self ≠ ∅)
                   then PARTIAL else SUCCESS).

(** The state the batch loop threads: the scraper and the database, and,
    as a record of what happened, the snapshots persisted so far (oldest
    first), the number of calls of [save_crawl_progress] and the addresses
    handed to [scrape_book] so far. *)
Record LoopState : Type := mkLoopState {
  ls_self : BookScraper;
  ls_db : Database;
  ls_persisted : list CrawlProgress;
  ls_saves : nat;
  ls_scraped : list string
}.

(** [storage.save_crawl_progress(progress)]: the single progress document
    is overwritten when the write succeeds. *)
Definition save_crawl_progress (w : World) (st : LoopState)
    (progress : CrawlProgress) : LoopState :=
  if save_ok w (ls_saves st)
  then mkLoopState (ls_self st)
                   (mkDatabase (books (ls_db st)) (change_log (ls_db st))
                               (Some progress))
                   (ls_persisted st ++ [progress]) (S (ls_saves st))
                   (ls_scraped st)
  else mkLoopState (ls_self st) (ls_db st) (ls_persisted st)
                   (S (ls_saves st)) (ls_scraped st).

(** [await asyncio.gather] over the batch: every task of the batch runs to its
    end.  Tasks run on one event loop and update the counters without
    awaiting in between, so each update is atomic; they are applied here in
    the order of the list. *)
Definition gather (w : World) (st : LoopState) (batch : list (nat * string))
    : LoopState :=
  foldl (λ st task,
           let '(self, db, _) :=
             scrape_book w task.1 (ls_self st) (ls_db st) task.2 in
           mkLoopState self db (ls_persisted st) (ls_saves st)
                       (ls_scraped st ++ [task.2]))
        st batch.

(** What a run of [crawl_all_books] leaves behind. *)
Record CrawlRun : Type := mkCrawlRun {
  returned : result CrawlProgress;
  run_state : LoopState
}.

Definition batch_size : nat := 50.

(** The part of [crawl_all_books] after discovery. *)
Definition crawl_discovered (w : World) (self : BookScraper) (db : Database)
    (resume : bool) (book_urls : list string) : CrawlRun :=
  let self := total_books_set self (length book_urls) in
  let book_urls :=
    if resume then
      (* Check which books are already in database *)
      let existing_urls : gset string := dom (books db) in
      (* Filter out already scraped books *)
      filter (λ url, url ∉ existing_urls) book_urls
    else book_urls in
  (* Create tasks for all books *)
  let tasks := imap (λ i url, (i, url)) book_urls in
  (* Execute with progress tracking *)
  let st :=
    foldl (λ st i,
             let batch := py_slice tasks i (i + batch_size) in
             let st := gather w st batch in
             (* Save progress *)
             let progress := make_progress (clock w (ls_saves st)) (ls_self st) in
             save_crawl_progress w st progress)
          (mkLoopState self db [] 0 [])
          (py_range 0 (length tasks) batch_size) in
  (* Final progress *)
  let progress := make_progress (clock w (ls_saves st)) (ls_self st) in
  let st := save_crawl_progress w st progress in
  mkCrawlRun (Returns progress) st.

(** [crawl_all_books(resume)].  [None] when discovery does not end within
    [fuel] listing pages. *)
Definition crawl_all_books (w : World) (fuel : nat) (self : BookScraper)
    (db : Database) (resume : bool) : option CrawlRun :=
  if connect_ok w then
    match get_all_book_urls w self fuel with
    | None => None
    | Some Raises => Some (mkCrawlRun Raises (mkLoopState self db [] 0 []))
    | Some (Returns book_urls) =>
        Some (crawl_discovered w self db resume book_urls)
    end
  else
    (* db.connect() raises *)
    Some (mkCrawlRun Raises (mkLoopState self db [] 0 [])).

(** [run_crawler(resume)]: a fresh scraper for every run, configured by
    the global [settings], which are read from the environment. *)
Definition run_crawler (settings : Config.Settings) (w : World) (fuel : nat)
    (db : Database) (resume : bool) : option CrawlRun :=
  let scraper := BookScraper_init settings in
  crawl_all_books w fuel scraper db resume.

(** The database with every stored book replaced by [refresh] of it: the
    same keys, other contents. *)
Definition restock (refresh : Book → Book) (db : Database) : Database :=
  mkDatabase (refresh <$> books db) (change_log db) (crawl_progress db).

(** The snapshots a run persists, oldest first; a run that never leaves
    discovery persists none. *)
Definition persisted_snapshots (settings : Config.Settings) (w : World)
    (fuel : nat) (db : Database) (resume : bool) : list CrawlProgress :=
  match run_crawler settings w fuel db resume with
  | Some run => ls_persisted (run_state run)
  | None => []
  end.

(** Whether the [i]-th task, [scrape_book(client, url)], stores its book:
    the page is fetched and is not empty, it parses, the [Book] validates
    and the upsert succeeds. *)
Definition task_succeeds (w : World) (self : BookScraper) (task : nat * string)
    : bool :=
  match (fetch_with_retry self (item_client w task.1) task.2 0).1 with
  | Raises => false
  | Returns html =>
      negb (not_html html)
      && match parse_book_details w (default "" html) (base_url self) task.2
         with
         | None => false
         | Some book_data => Book_validates w book_data && upsert_ok w task.1
         end
  end.

(** What one task does to the counters. *)
Definition account (w : World) (self : BookScraper) (task : nat * string)
    : BookScraper :=
  if task_succeeds w self task then completed_books_incr self
  else failed_urls_add self task.2.

(** The snapshot built after the batch that starts at [j * batch_size],
    for a scraper that entered the loop as [self]: the counters account for
    the first [(j + 1) * batch_size] tasks. *)
Definition snapshot_after (w : World) (self : BookScraper)
    (tasks : list (nat * string)) (j : nat) : CrawlProgress :=
  make_progress (clock w j)
    (foldl (account w) self (take ((j + 1) * batch_size) tasks)).

End Scraper.

(** ** The permit pool: coroutines sharing [self.semaphore]

    Each coroutine is the list of effects it still has to perform; the
    event loop picks one coroutine at a time and lets it perform its next
    effect.  [Acquire] can be performed only while a permit is free. *)

Module Semaphore.

Import Scraper.

Record task : Type := mkTask {
  started : bool;
  holding : bool;
  todo : list effect
}.

Record pool : Type := mkPool {
  permits : nat;
  tasks : list task
}.

(** [K] permits and one coroutine per effect list, none started. *)
Definition init (K : nat) (programs : list (list effect)) : pool :=
  mkPool K (mkTask false false <$> programs).

(** Coroutine [i] performs its next effect; [None] when it has finished
    or is blocked on the semaphore. *)
Definition step (i : nat) (s : pool) : option pool :=
  t ← tasks s !! i;
  match todo t with
  | [] => None
  | Acquire :: rest =>
      if bool_decide (permits s = 0) then None
      else Some (mkPool (permits s - 1)
                        (<[i := mkTask true true rest]> (tasks s)))
  | Release :: rest =>
      Some (mkPool (permits s + 1)
                   (<[i := mkTask true false rest]> (tasks s)))
  | _ :: rest =>
      Some (mkPool (permits s)
                   (<[i := mkTask true (holding t) rest]> (tasks s)))
  end.

(** The event loop follows a schedule: the coroutine to resume at each
    turn. *)
Fixpoint run (schedule : list nat) (s : pool) : option pool :=
  match schedule with
  | [] => Some s
  | i :: rest => s' ← step i s; run rest s'
  end.

(** A logical fetch is in flight from its first effect to its last. *)
Definition in_flight (t : task) : bool :=
  started t && bool_decide (todo t ≠ []).

Definition in_flight_count (s : pool) : nat :=
  length (filter (λ t, in_flight t = true) (tasks s)).

Definition holding_count (s : pool) : nat :=
  length (filter (λ t, holding t = true) (tasks s)).

(** The coroutine is about to sleep in a backoff. *)
Definition sleeping (t : task) : Prop :=
  ∃ n rest, todo t = Sleep n :: rest.

(** The coroutine is about to send a request. *)
Definition requesting (t : task) : Prop :=
  ∃ url rest, todo t = HttpGet url :: rest.

(** The permit discipline of an effect list, given whether the permit is
    held at its start: requests are sent with the permit, sleeps happen
    without it, and nothing is held at the end. *)
Fixpoint bracketed (held : bool) (effects : list effect) : Prop :=
  match effects with
  | [] => held = false
  | Acquire :: rest => held = false ∧ bracketed true rest
  | Release :: rest => held = true ∧ bracketed false rest
  | HttpGet _ :: rest => held = true ∧ bracketed held rest
  | Sleep _ :: rest => held = false ∧ bracketed held rest
  | _ :: rest => bracketed held rest
  end.

(** The invariant of the pool: the permits handed out and the free ones
    add up to [K], and every coroutine follows the permit discipline. *)
Definition pool_ok (K : nat) (s : pool) : Prop :=
  holding_count s + permits s = K
  ∧ Forall (λ t, bracketed (holding t) (todo t)) (tasks s).

(** The coroutines of a list of calls [fetch_with_retry(client, url)]. *)
Definition fetches (self : BookScraper) (calls : list (Client * string))
    : list (list effect) :=
  (λ c, (fetch_with_retry self c.1 c.2 0).2) <$> calls.




End Semaphore.

(** ** Sample worlds *)

Module Samples.

Import Scraper.

Definition empty_db : Database := mkDatabase ∅ [] None.

(** A server that answers every request with a retryable error. *)
Definition unreachable : Client := λ _ _, HttpError "ConnectError".

(** A one-page catalogue of three books; the page of the second one has
    no title, so [parse_book_details] returns [None] for it. *)
Definition listing_html : string := "<listing>".
Definition untitled_html : string := "<untitled>".

Definition three_books : list string :=
  ["https://books.toscrape.com/catalogue/a/index.html";
   "https://books.toscrape.com/catalogue/b/index.html";
   "https://books.toscrape.com/catalogue/c/index.html"].

(** The parsed fields (the two integer fields are left out). *)
Definition sample_fields (html url : string) : pydict :=
  [ ("url", PyStr url); ("name", PyStr html); ("description", PyNone);
    ("category", PyStr "Unknown"); ("price_excl_tax", PyFloat "51.77");
    ("price_incl_tax", PyFloat "51.77"); ("availability", PyStr "In stock");
    ("image_url", PyStr "") ].

Definition catalogue (server : string → http_result) : World :=
  {| urljoin := λ base path, base +:+ "/" +:+ path;
     extract_book_links :=
       λ html _, if bool_decide (html = listing_html) then three_books else [];
     extract_next_page_url := λ _ _, None;
     parse_book_details :=
       λ html _ url,
         if bool_decide (html = untitled_html) then None
         else Some (sample_fields html url);
     Book_validates := λ _, true;
     connect_ok := true;
     page_client := λ _ url _, server url;
     item_client := λ _ url _, server url;
     store_html_snapshot := λ _, None;
     upsert_ok := λ _, true;
     save_ok := λ _, true;
     item_clock := λ _, 0%Z;
     clock := λ n, Z.of_nat n |}.

(** The site is down. *)
Definition site_down : World := catalogue (λ _, HttpError "ConnectError").

(** The site is up; the second book's page has no title. *)
Definition site_up : World :=
  catalogue
    (λ url,
       if bool_decide (url = "https://books.toscrape.com/catalogue/page-1.html")
       then HttpOk listing_html
       else if bool_decide
                 (url = "https://books.toscrape.com/catalogue/b/index.html")
       then HttpOk untitled_html
       else HttpOk "<h1>A Book</h1>").

(** Two logical fetches of an unreachable site under a single permit, and
    a schedule in which the first coroutine fails once and reaches its
    backoff sleep, after which the second one takes the permit. *)
Definition two_fetches : list (list effect) :=
  Semaphore.fetches (BookScraper_init Config.settings)
    [(unreachable, "https://books.toscrape.com/catalogue/a/index.html");
     (unreachable, "https://books.toscrape.com/catalogue/b/index.html")].

Definition overlap_schedule : list nat := [0; 0; 0; 0; 1].

(** The listing is served, the pages of the books are not. *)
Definition items_down : World :=
  catalogue
    (λ url,
       if bool_decide (url = "https://books.toscrape.com/catalogue/page-1.html")
       then HttpOk listing_html
       else HttpError "ConnectError").

(** A database that already holds the first of the three books. *)
Definition first_book_stored : Database :=
  mkDatabase
    {[ "https://books.toscrape.com/catalogue/a/index.html" :=
         mkBook (sample_fields "<h1>A Book</h1>"
                   "https://books.toscrape.com/catalogue/a/index.html")
                "" (mkCrawlMetadata 0 SUCCESS
                      "https://books.toscrape.com/catalogue/a/index.html" None)
                None ]}
    [] None.

End Samples.

(** ** [utilities/config.py] and [api/auth.py]: the API keys *)

Module Auth.

(** [str.isspace] for one character (code points below 256). *)
Definition is_space (c : ascii) : bool :=
  let n := nat_of_ascii c in
  ((9 <=? n) && (n <=? 13)) || ((28 <=? n) && (n <=? 32))
  || (n =? 133) || (n =? 160).

(** [s.lstrip()] *)
Fixpoint lstrip (s : string) : string :=
  match s with
  | EmptyString => EmptyString
  | String c rest => if is_space c then lstrip rest else s
  end.

(** [s.rstrip()] *)
Fixpoint rstrip (s : string) : string :=
  match s with
  | EmptyString => EmptyString
  | String c rest =>
      let rest' := rstrip rest in
      if is_space c && bool_decide (rest' = "") then "" else String c rest'
  end.

(** [s.strip()] *)
Definition strip (s : string) : string := rstrip (lstrip s).

(** [s.split(sep)] for a separator of one character: the pieces between
    the separators, of which there is always at least one. *)
Fixpoint split (sep : ascii) (s : string) : list string :=
  match s with
  | EmptyString => [""]
  | String c rest =>
      if bool_decide (c = sep) then "" :: split sep rest
      else
        match split sep rest with
        | piece :: pieces => String c piece :: pieces
        | [] => [String c ""]
        end
  end.

(** [sep.join(pieces)] *)
Fixpoint join (sep : ascii) (pieces : list string) : string :=
  match pieces with
  | [] => ""
  | [piece] => piece
  | piece :: rest => piece +:+ String sep (join sep rest)
  end.

(** The string is empty or begins with a character that is not white
    space. *)
Definition starts_clean (s : string) : Prop :=
  match s with
  | EmptyString => True
  | String c _ => is_space c = false
  end.

Definition comma : ascii := ","%char.

(** [Settings.api_keys_list] for the value of [api_keys]:
    [[key.strip() for key in api_keys.split(",") if key.strip()]]. *)
Definition api_keys_list (api_keys : string) : list string :=
  filter (λ key, key ≠ "") (strip <$> split comma api_keys).

(** The default of [Settings.api_keys]. *)
Definition default_api_keys : string := "dev_key_123".

(** [verify_api_key(api_key)]: the key, or the 401 response. *)
Inductive verdict : Type :=
  | Accepted (api_key : string)
  | Unauthorized.

Definition verify_api_key (api_keys api_key : string) : verdict :=
  let valid_keys := api_keys_list api_keys in
  if bool_decide (api_key ∉ valid_keys) then Unauthorized
  else Accepted api_key.

(** A key as [api_keys_list] yields them: not empty, no comma, no white
    space at either end. *)
Definition key_ok (key : string) : Prop :=
  key ≠ "" ∧ (comma ∉ list_ascii_of_string key) ∧ strip key = key.

End Auth.

(** ** [crawler/parser.py]: the rating *)

Module Parser.

Definition RATING_MAP : list (string * nat) :=
  [("One", 1); ("Two", 2); ("Three", 3); ("Four", 4); ("Five", 5)].

(** [RATING_MAP[cls]] when [cls in RATING_MAP] *)
Definition rating_of (cls : string) : option nat :=
  (λ hit : nat * (string * nat), hit.2.2)
    <$> list_find (λ kv, kv.1 = cls) RATING_MAP.

(** The loop [for cls in classes: if cls in self.RATING_MAP: return ...] *)
Fixpoint first_rating (classes : list string) : option nat :=
  match classes with
  | [] => None
  | cls :: rest =>
      match rating_of cls with
      | Some r => Some r
      | None => first_rating rest
      end
  end.

(** [BookParser._extract_rating]: [rating_elem] is the class list of the
    first [<p class="star-rating ...">] of the page, if there is one. *)
Definition _extract_rating (rating_elem : option (list string)) : nat :=
  match rating_elem with
  | Some classes => default 3 (first_rating classes)
  | None => 3
  end.

End Parser.

(** ** [crawler/storage.py]: the other operations of [BookStorage]

    Each operation catches the exception of a failed database call; [ok]
    says whether the call went through. *)

Module StorageOps.

(** [get_book_by_url(url)] *)
Definition get_book_by_url (ok : bool) (db : Database) (url : string)
    : option Book :=
  if ok then books db !! url else None.

(** [get_total_books_count()] *)
Definition get_total_books_count (ok : bool) (db : Database) : nat :=
  if ok then size (books db) else 0.

(** [get_crawl_progress()] *)
Definition get_crawl_progress (ok : bool) (db : Database)
    : option CrawlProgress :=
  if ok then crawl_progress db else None.

(** The two handles the snapshot store depends on: [db.sync_client], which
    [Database.__init__] sets to [None] and only [get_sync_client] ever
    assigns, and [storage.gridfs], which [BookStorage.__init__] sets to
    [None]. *)
Record Handles : Type := mkHandles {
  sync_client : bool;
  gridfs : bool
}.

(** The handles after [Database()] and [BookStorage()]. *)
Definition Handles_init : Handles := mkHandles false false.

(** [Database.connect()] assigns [client] and [db] and nothing else. *)
Definition connect (h : Handles) : Handles := h.

(** [Database.get_sync_client()] *)
Definition get_sync_client (h : Handles) : Handles :=
  if negb (sync_client h) then mkHandles true (gridfs h) else h.

(** [BookStorage._init_gridfs()] *)
Definition _init_gridfs (h : Handles) : Handles :=
  if negb (gridfs h) && sync_client h then mkHandles (sync_client h) true
  else h.

(** [BookStorage.store_html_snapshot(url, html)]; [put] is
    [GridFS.put], [None] when it raises. *)
Definition store_html_snapshot (put : string → string → option string)
    (h : Handles) (url html : string) : option string * Handles :=
  let h := _init_gridfs h in
  if negb (gridfs h) then (None, h)
  else (put url html, h).

(** What the crawler and the scheduler do to the handles: they connect and
    they store snapshots; no code of the repository calls
    [get_sync_client]. *)
Inductive handle_op : Type :=
  | Connect
  | StoreSnapshot (url html : string).

(** The snapshot ids returned by the [StoreSnapshot] operations of a
    sequence, in order. *)
Fixpoint run_ops (put : string → string → option string) (h : Handles)
    (ops : list handle_op) : list (option string) * Handles :=
  match ops with
  | [] => ([], h)
  | Connect :: rest => run_ops put (connect h) rest
  | StoreSnapshot url html :: rest =>
      let '(id, h) := store_html_snapshot put h url html in
      let '(ids, h) := run_ops put h rest in
      (id :: ids, h)
  end.

End StorageOps.

(** ** [scheduler/change_detector.py]: the change log and its reports *)

Module Reports.

(** [log_change(change)]: the insert, or nothing when it raises. *)
Definition log_change (insert_ok : bool) (db : Database) (change : ChangeLog)
    : Database :=
  if insert_ok
  then mkDatabase (books db) (change_log db ++ [change]) (crawl_progress db)
  else db.

(** The query [{"detected_at": {"$gte": start_date, "$lte": end_date}}],
    each bound present when the date is given. *)
Definition matches (start_date end_date : option Z) (change : ChangeLog)
    : Prop :=
  from_option (λ start, (start ≤ detected_at change)%Z) True start_date
  ∧ from_option (λ stop, (detected_at change ≤ stop)%Z) True end_date.

#[global] Instance matches_dec start_date end_date change :
  Decision (matches start_date end_date change).
Proof. unfold matches. destruct start_date, end_date; simpl; apply _. Defined.

(** Newest first. *)
Definition newer (a b : ChangeLog) : Prop :=
  (detected_at b ≤ detected_at a)%Z.

#[global] Instance newer_dec a b : Decision (newer a b).
Proof. unfold newer. apply _. Defined.

(** [db.db.change_log.find(query).sort("detected_at", -1)]; the order of
    entries with the same date is the database's choice. *)
Definition find_changes (start_date end_date : option Z) (db : Database)
    : list ChangeLog :=
  merge_sort newer (filter (matches start_date end_date) (change_log db)).

(** The files of the [reports] directory: path to content. *)
Definition Files : Type := gmap string string.

(** [generate_change_report(start_date, end_date, format)]: the path
    returned and the files afterwards.  [stamp] is the formatted clock
    reading; [dump] and [csv] render the changes. *)
Definition generate_change_report (stamp : string)
    (dump csv : list ChangeLog → string)
    (start_date end_date : option Z) (format : string)
    (db : Database) (files : Files) : string * Files :=
  let changes := find_changes start_date end_date db in
  if bool_decide (format = "json") then
    let filename := "reports/change_report_" +:+ stamp +:+ ".json" in
    (filename, <[filename := dump changes]> files)
  else
    let filename := "reports/change_report_" +:+ stamp +:+ ".csv" in
    if bool_decide (changes ≠ [])
    then (filename, <[filename := csv changes]> files)
    else (filename, files).

End Reports.

(** ** [scheduler/jobs.py] *)

Module Jobs.

(** What a job does besides reading and writing the database. *)
Inductive job_event : Type :=
  | ReportGenerated (report_path : string)
  | AlertSent.

(** [SchedulerManager.change_detection_job()] *)
Definition change_detection_job (now : Z) (stamp : string)
    (dump csv : list ChangeLog → string)
    (enable_email_alerts : bool) (alert_email : string)
    (db : Database) (files : Reports.Files)
    : Database * Reports.Files * list job_event :=
  let '(summary, db) := ChangeDetector.run_change_detection now db in
  (* Generate report if changes detected *)
  if bool_decide (0 < ChangeDetector.summary_changes_detected summary) then
    let '(report_path, files) :=
      Reports.generate_change_report stamp dump csv None None "json" db files
    in
    (* Send alert if configured *)
    if enable_email_alerts && bool_decide (alert_email ≠ "")
    then (db, files, [ReportGenerated report_path; AlertSent])
    else (db, files, [ReportGenerated report_path])
  else (db, files, []).

(** [SchedulerManager.daily_crawl_job()]: the crawl always resumes; an
    exception that leaves [run_crawler] is logged and dropped.  The
    database afterwards, [None] when discovery does not end within
    [fuel] pages. *)
Definition daily_crawl_job (settings : Config.Settings) (w : Scraper.World)
    (fuel : nat) (db : Database) : option Database :=
  run ← Scraper.run_crawler settings w fuel db true;
  Some (Scraper.ls_db (Scraper.run_state run)).

End Jobs.

(** ** [api/routes.py]: the change feed *)

Module Routes.

(** [PaginatedResponse] *)
Record PaginatedResponse : Type := mkPaginatedResponse {
  resp_items : list ChangeLog;
  resp_total : nat;
  resp_page : nat;
  resp_page_size : nat;
  resp_total_pages : nat
}.

(** The query of [get_changes]: the bounds on [detected_at] as in the
    report, and the stored category when [change_type] is given and is
    not the empty string. *)
Definition changes_query (start_date end_date : option Z)
    (change_type_filter : option string) (change : ChangeLog) : Prop :=
  Reports.matches start_date end_date change
  ∧ from_option
      (λ ct, ct ≠ String.EmptyString →
             ChangeDetector.ChangeType_value (change_type change) = ct)
      True change_type_filter.

#[global] Instance changes_query_dec start_date end_date ct change :
  Decision (changes_query start_date end_date ct change).
Proof. unfold changes_query. destruct ct; simpl; apply _. Defined.

(** The body of [get_changes] for parameters that passed validation
    ([page >= 1], [1 <= page_size <= 100]) and a database that answers. *)
Definition get_changes (start_date end_date : option Z)
    (change_type_filter : option string) (page page_size : nat)
    (db : Database) : PaginatedResponse :=
  let matching :=
    merge_sort Reports.newer
      (filter (changes_query start_date end_date change_type_filter)
              (change_log db)) in
  (* Get total count *)
  let total := length matching in
  (* Calculate pagination *)
  let skip := (page - 1) * page_size in
  let total_pages := (total + page_size - 1) / page_size in
  (* Fetch changes *)
  let changes := take page_size (drop skip matching) in
  mkPaginatedResponse changes total page page_size total_pages.

End Routes.

(** ** [scheduler/jobs.py]: running a job by name *)

Module SchedulerManager.

(** [SchedulerManager.run_job_now(job_name)]: the database and the report
    files afterwards and what else the job did; [None] when the crawl's
    discovery does not end within [fuel] pages. *)
Definition run_job_now (settings : Config.Settings) (w : Scraper.World)
    (fuel : nat) (now : Z) (stamp : string)
    (dump csv : list ChangeLog → string)
    (enable_email_alerts : bool) (alert_email : string) (job_name : string)
    (db : Database) (files : Reports.Files)
    : option (Database * Reports.Files * list Jobs.job_event) :=
  if bool_decide (job_name = "daily_crawl") then
    db ← Jobs.daily_crawl_job settings w fuel db;
    Some (db, files, [])
  else if bool_decide (job_name = "change_detection") then
    Some (Jobs.change_detection_job now stamp dump csv enable_email_alerts
            alert_email db files)
  else
    Some (db, files, []).

End SchedulerManager.

(** ** More sample data *)

Module MoreSamples.

Import Scraper.

(** The site is up and every page of a book parses. *)
Definition site_complete : World :=
  Samples.catalogue
    (λ url,
       if bool_decide (url = "https://books.toscrape.com/catalogue/page-1.html")
       then HttpOk Samples.listing_html
       else HttpOk "<h1>A Book</h1>").

(** Five log entries with the dates 1 to 5. *)
Definition five_changes : Database :=
  mkDatabase ∅
    ((λ t, mkChangeLog "123" "Test Book" PRICE_CHANGE None [] t)
       <$> [3; 1; 5; 2; 4]%Z)
    None.

End MoreSamples.

(** * Properties *)

(** ** Python values *)

Lemma py_eq_refl (v : pyval) : self_equal v → py_eq v v = true.
Proof.
  unfold self_equal. destruct v as [| s | r]; simpl; intros Hv; [done | |].
  - by apply bool_decide_eq_true.
  - unfold float_is_nan. rewrite bool_decide_eq_false_2 by congruence.
    simpl. apply orb_true_iff. left. by apply bool_decide_eq_true.
Qed.

Lemma py_ne_refl (v : pyval) : self_equal v → py_ne v v = false.
Proof. intros Hv. unfold py_ne. by rewrite py_eq_refl. Qed.

(** [nan != nan] *)
Example py_ne_nan : py_ne (PyFloat "nan") (PyFloat "nan") = true.
Proof. reflexivity. Qed.

(** ** SHA-256 and JSON: agreement with CPython on known inputs *)

Example sha256_constants :
  Sha256.K !! 0%nat = Some 0x428a2f98%Z
  ∧ Sha256.K !! 63%nat = Some 0xc67178f2%Z
  ∧ length Sha256.K = 64
  ∧ Sha256.wa Sha256.H0 = 0x6a09e667%Z
  ∧ Sha256.wh Sha256.H0 = 0x5be0cd19%Z.
Proof. repeat split. Qed.

Example sha256_abc :
  Sha256.hexdigest (Sha256.encode "abc")
  = "ba7816bf8f01cfea414140de5dae2223b00361a396177a9cb410ff61f20015ad".
Proof. vm_compute. reflexivity. Qed.

(** [json.dumps] of a string with a quote, a backslash, control
    characters, DEL and a Latin-1 letter, against CPython's output; both
    strings are given by their character codes. *)
Example json_string_escapes :
  Json.json_string
    (string_of_list_ascii
       (ascii_of_nat <$> [113; 34; 92; 10; 13; 9; 8; 12; 1; 127; 233; 32; 47]))
  = string_of_list_ascii
      (ascii_of_nat
         <$> [34; 113; 92; 34; 92; 92; 92; 110; 92; 114; 92; 116; 92; 98;
              92; 102; 92; 117; 48; 48; 48; 49; 92; 117; 48; 48; 55; 102;
              92; 117; 48; 48; 101; 57; 32; 47; 34]).
Proof. vm_compute. reflexivity. Qed.

Example hash_test_book :
  Storage.generate_content_hash
    [("name", PyStr "Test Book"); ("price_incl_tax", PyFloat "10.99");
     ("price_excl_tax", PyFloat "9.99"); ("availability", PyStr "In stock");
     ("description", PyStr "Test description"); ("category", PyStr "Poetry")]
  = "3b6698a3693a23b732c1edc96afc84362cace15e91e0652d6a739c303a058b38".
Proof. vm_compute. reflexivity. Qed.

(** ** Dictionaries *)




Lemma dict_get_set_eq (k : string) (v : pyval) (d : pydict) :
  dict_get k (dict_set k v d) = v.
Proof.
  unfold dict_get.
  induction d as [| [k0 v0] d IH]; simpl.
  - by rewrite bool_decide_eq_true_2.
  - repeat (case_bool_decide; simpl; subst); try done.
Qed.

(** ** [json.dumps] loses nothing *)












(** ** SHA-256 digests are 256-bit numbers *)







(** ** The content fingerprint *)




(** *** The digest is read back from its hexadecimal text *)









(** The two test dictionaries do get different fingerprints, as
    [test_content_hash_changes_with_price] asserts. *)
Example test_content_hash_changes_with_price :
  Storage.generate_content_hash Storage.book_data1
  ≠ Storage.generate_content_hash Storage.book_data2.
Proof. vm_compute. discriminate. Qed.

(** ** Sample runs *)

(** The end-to-end scenario: three addresses discovered on one page, one
    of which fails to parse. *)
Example crawl_three_books_one_unparsed :
  (λ r, (Scraper.returned r, Scraper.ls_persisted (Scraper.run_state r)))
    <$> Scraper.run_crawler Config.settings Samples.site_up 5 Samples.empty_db false
  = Some (Scraper.Returns
            (mkCrawlProgress 1 3 2
               ["https://books.toscrape.com/catalogue/b/index.html"] PARTIAL),
          [mkCrawlProgress 0 3 2
             ["https://books.toscrape.com/catalogue/b/index.html"] PARTIAL;
           mkCrawlProgress 1 3 2
             ["https://books.toscrape.com/catalogue/b/index.html"] PARTIAL]).
Proof. vm_compute. reflexivity. Qed.

(** ** Change detection *)

(** Comparing a record with itself yields no event, unless one of the
    compared fields is the float [nan]. *)
Lemma detect_changes_identical (now : Z) (book : pydict) :
  self_equal (dict_get "price_incl_tax" book) →
  self_equal (dict_get "availability" book) →
  self_equal (dict_get "description" book) →
  ChangeDetector.detect_changes now book book = Some [].
Proof.
  intros Hp Ha Hd. unfold ChangeDetector.detect_changes.
  by rewrite !py_ne_refl.
Qed.

(** When the price with tax differs, exactly one [PRICE_CHANGE] event is
    emitted, and it carries both old prices and both new prices. *)
Lemma detect_changes_price_incl_tax (now : Z) (old new : pydict) (name : string) :
  dict_get_default "name" (PyStr "Unknown") new = PyStr name →
  py_ne (dict_get "price_incl_tax" old) (dict_get "price_incl_tax" new) = true →
  ∃ changes,
    ChangeDetector.detect_changes now old new = Some changes
    ∧ ChangeDetector.events_of PRICE_CHANGE changes
      = [ mkChangeLog (py_str (dict_get_default "_id" (PyStr "") old)) name
            PRICE_CHANGE
            (Some [("price_incl_tax", dict_get "price_incl_tax" old);
                   ("price_excl_tax", dict_get "price_excl_tax" old)])
            [("price_incl_tax", dict_get "price_incl_tax" new);
             ("price_excl_tax", dict_get "price_excl_tax" new)]
            now ].
Proof.
  intros Hname Hne. unfold ChangeDetector.detect_changes.
  rewrite Hname, Hne. simpl.
  destruct (py_ne (dict_get "availability" old) (dict_get "availability" new));
    destruct (py_ne (dict_get "description" old) (dict_get "description" new));
    simpl; eexists; (split; [reflexivity |]); reflexivity.
Qed.

(** When the price with tax is the same on both sides, no [PRICE_CHANGE]
    event is emitted, whatever the prices without tax are. *)
Lemma detect_changes_price_incl_tax_same (now : Z) (o n : pydict)
    (cs : list ChangeLog) :
  py_ne (dict_get "price_incl_tax" o) (dict_get "price_incl_tax" n) = false →
  ChangeDetector.detect_changes now o n = Some cs →
  ChangeDetector.events_of PRICE_CHANGE cs = [].
Proof.
  intros Heq. unfold ChangeDetector.detect_changes. rewrite Heq. simpl.
  destruct (dict_get_default "name" (PyStr "Unknown") n) as [| name |];
    destruct (py_ne (dict_get "availability" o) (dict_get "availability" n));
    destruct (py_ne (dict_get "description" o) (dict_get "description" n));
    simpl; intros [= <-]; reflexivity.
Qed.

(** [test_detect_price_change] *)
Example test_detect_price_change :
  ChangeDetector.detect_changes 0 ChangeDetector.old_book
    ChangeDetector.new_book_prices_changed
  = Some [ mkChangeLog "123" "Test Book" PRICE_CHANGE
             (Some [("price_incl_tax", PyFloat "10.99");
                    ("price_excl_tax", PyFloat "9.99")])
             [("price_incl_tax", PyFloat "12.99");
              ("price_excl_tax", PyFloat "11.99")] 0 ].
Proof. vm_compute. reflexivity. Qed.

(** C2: the price without tax has changed between the two records, and
    [detect_changes] emits no event at all. *)
Theorem detect_changes_misses_price_excl_tax :
  py_ne (dict_get "price_excl_tax" ChangeDetector.old_book)
        (dict_get "price_excl_tax" ChangeDetector.new_book_excl_tax_changed)
  = true
  ∧ ChangeDetector.detect_changes 0 ChangeDetector.old_book
      ChangeDetector.new_book_excl_tax_changed
    = Some [].
Proof. split; vm_compute; reflexivity. Qed.

(** C9: [run_change_detection] reports zero changes and zero new books for
    every database, and leaves the database, hence the change log, as it
    found it.  It is handed no client and no parser, so it fetches nothing;
    its list of detected changes is the empty list it starts with. *)
Theorem run_change_detection_reports_nothing (now : Z) (db : Database) :
  let '(summary, db') := ChangeDetector.run_change_detection now db in
  ChangeDetector.summary_changes_detected summary = 0
  ∧ ChangeDetector.summary_new_books summary = 0
  ∧ ChangeDetector.summary_change_types summary = ∅
  ∧ ChangeDetector.summary_total_books_checked summary = size (books db)
  ∧ change_log db' = change_log db
  ∧ db' = db.
Proof.
  unfold ChangeDetector.run_change_detection; simpl.
  repeat split.
  rewrite size_dom. f_equal.
  apply (map_fold_weak_ind (λ r m, r = m)); [done |].
  by intros i x m r _ ->.
Qed.

(** ** [fetch_with_retry] *)

Import Scraper.

(** The recursion of the source, as one equation. *)
Lemma fetch_with_retry_eqn (self : BookScraper) (client : Client)
    (url : string) (retries : nat) :
  fetch_with_retry self client url retries
  = match client url retries with
    | HttpOk text => (Returns (Some text), [Acquire; HttpGet url; Release])
    | HttpRaises => (Raises, [Acquire; HttpGet url; Release])
    | HttpError e =>
        if decide (retries < max_retries self) then
          let rest := fetch_with_retry self client url (retries + 1) in
          (rest.1,
           [Acquire; HttpGet url; Release;
            LogWarning url (2 ^ retries) (retries + 1) (max_retries self) e;
            Sleep (2 ^ retries)] ++ rest.2)
        else
          (Returns None,
           [Acquire; HttpGet url; Release; LogError url (max_retries self) e])
    end.
Proof.
  funelim (fetch_with_retry self client url retries);
    match goal with H : client _ _ = _ |- _ => rewrite H end; try done.
  all: match goal with H : decide _ = _ |- _ => by rewrite H end.
Qed.

Import Semaphore.






(** ** The permit pool *)

(** [fetch_with_retry] takes the permit for each request and gives it back
    before anything else happens. *)
Lemma fetch_with_retry_bracketed (self : BookScraper) (client : Client)
    (url : string) (retries : nat) :
  bracketed false (fetch_with_retry self client url retries).2.
Proof.
  remember (max_retries self - retries) as n eqn:Hn.
  revert retries Hn. induction n as [| n IH]; intros retries Hn;
    rewrite fetch_with_retry_eqn;
    destruct (client url retries) as [text | e |]; simpl; try done;
    destruct (decide (retries < max_retries self)); simpl; try done;
    try lia.
  repeat split. apply IH. lia.
Qed.

Lemma count_insert {A} (P : A → Prop) `{!∀ x, Decision (P x)}
    (l : list A) (i : nat) (x y : A) :
  l !! i = Some x →
  length (filter P (<[i := y]> l)) + (if decide (P x) then 1 else 0)
  = length (filter P l) + (if decide (P y) then 1 else 0).
Proof.
  intros Hi.
  rewrite insert_take_drop by (by eapply lookup_lt_Some).
  rewrite <- (take_drop_middle l i x Hi) at 3.
  rewrite !filter_app, !filter_cons, !length_app.
  destruct (decide (P x)), (decide (P y)); simpl; lia.
Qed.

Lemma step_pool_ok (K i : nat) (s s' : pool) :
  pool_ok K s → step i s = Some s' → pool_ok K s'.
Proof.
  intros [Hsum Hall]. unfold step.
  destruct (tasks s !! i) as [t |] eqn:Hi; simpl; [| done].
  pose proof (Forall_lookup_1 _ _ _ _ Hall Hi) as Ht. simpl in Ht.
  pose proof (count_insert (λ t, holding t = true) (tasks s) i t) as Hcount.
  unfold pool_ok, holding_count in *.
  destruct (todo t) as [| e rest]; [done |].
  destruct e; simpl in Ht.
  - case_bool_decide; [done |]. intros [= <-]. simpl.
    destruct Ht as [Hh Hrest]. split.
    + specialize (Hcount (mkTask true true rest) Hi).
      rewrite Hh in Hcount. simpl in Hcount.
      repeat case_decide; try done. lia.
    + by apply Forall_insert.
  - intros [= <-]. simpl. destruct Ht as [Hh Hrest]. split.
    + specialize (Hcount (mkTask true false rest) Hi).
      rewrite Hh in Hcount. simpl in Hcount.
      repeat case_decide; try done. lia.
    + by apply Forall_insert.
  - intros [= <-]. simpl. destruct Ht as [Hh Hrest]. split.
    + specialize (Hcount (mkTask true (holding t) rest) Hi).
      simpl in Hcount. repeat case_decide; try done; lia.
    + by apply Forall_insert.
  - intros [= <-]. simpl. destruct Ht as [Hh Hrest]. split.
    + specialize (Hcount (mkTask true (holding t) rest) Hi).
      simpl in Hcount. repeat case_decide; try done; lia.
    + by apply Forall_insert.
  - intros [= <-]. simpl. split.
    + specialize (Hcount (mkTask true (holding t) rest) Hi).
      simpl in Hcount. repeat case_decide; try done; lia.
    + by apply Forall_insert.
  - intros [= <-]. simpl. split.
    + specialize (Hcount (mkTask true (holding t) rest) Hi).
      simpl in Hcount. repeat case_decide; try done; lia.
    + by apply Forall_insert.
Qed.

Lemma run_pool_ok (K : nat) (schedule : list nat) (s s' : pool) :
  pool_ok K s → run schedule s = Some s' → pool_ok K s'.
Proof.
  revert s. induction schedule as [| i schedule IH]; intros s Hok; simpl.
  - by intros [= <-].
  - destruct (step i s) as [s1 |] eqn:Hstep; simpl; [| done].
    apply IH. by eapply step_pool_ok.
Qed.

Lemma init_pool_ok (K : nat) (self : BookScraper)
    (calls : list (Client * string)) :
  pool_ok K (init K (fetches self calls)).
Proof.
  unfold pool_ok, init, holding_count, fetches; simpl. split.
  - rewrite <- !list_fmap_compose.
    induction calls as [| c calls IH]; simpl; [done |].
    rewrite filter_cons_False by done. exact IH.
  - rewrite <- !list_fmap_compose. apply Forall_fmap, Forall_forall.
    intros c _. simpl. apply fetch_with_retry_bracketed.
Qed.

(** C3, as stated, refuted: with one permit, the first fetch is in its
    backoff (about to sleep, holding nothing) when the second fetch takes
    the permit, so two logical fetches are in flight under a limit of
    one. *)
Lemma in_flight_fetches_exceed_permits :
  ∃ s t0,
    run Samples.overlap_schedule (init 1 Samples.two_fetches) = Some s
    ∧ 1 < in_flight_count s
    ∧ tasks s !! 0 = Some t0
    ∧ todo t0 !! 0 = Some (Sleep 1)
    ∧ holding t0 = false.
Proof.
  eexists _, _. split; [vm_compute; reflexivity |].
  split; [vm_compute; lia |].
  split; [vm_compute; reflexivity |].
  split; vm_compute; reflexivity.
Qed.

(** C3, as amended.  The permit is held around each single request only:
    in every state the event loop can reach, a coroutine about to send a
    request holds a permit, a coroutine about to sleep in a backoff holds
    none, and the permits held and free add up to [K]; so at most [K]
    requests are being made at any time. *)
Theorem permit_held_per_request (K : nat) (self : BookScraper)
    (calls : list (Client * string)) (schedule : list nat) (s : pool) :
  run schedule (init K (fetches self calls)) = Some s →
  holding_count s + permits s = K
  ∧ holding_count s ≤ K
  ∧ ∀ t, t ∈ tasks s →
      (requesting t → holding t = true) ∧ (sleeping t → holding t = false).
Proof.
  intros Hrun.
  destruct (run_pool_ok K schedule _ s (init_pool_ok K self calls) Hrun)
    as [Hsum Hall].
  split; [done |]. split; [lia |].
  intros t Ht. rewrite Forall_forall in Hall. specialize (Hall t Ht).
  split.
  - intros (url & rest & Htodo). rewrite Htodo in Hall. by destruct Hall.
  - intros (n & rest & Htodo). rewrite Htodo in Hall. by destruct Hall.
Qed.

Lemma permit_held_per_request_witness :
  ∃ s,
    run Samples.overlap_schedule (init 1 Samples.two_fetches) = Some s
    ∧ holding_count s + permits s = 1
    ∧ holding_count s ≤ 1.
Proof.
  assert (is_Some (run Samples.overlap_schedule (init 1 Samples.two_fetches)))
    as [s Hs] by (vm_compute; eauto).
  exists s. split; [exact Hs |].
  destruct (permit_held_per_request 1 (BookScraper_init Config.settings)
              [(Samples.unreachable,
                "https://books.toscrape.com/catalogue/a/index.html");
               (Samples.unreachable,
                "https://books.toscrape.com/catalogue/b/index.html")]
              Samples.overlap_schedule s Hs) as (Hsum & Hle & _).
  split; [exact Hsum | exact Hle].
Defined.

(** ** The crawl *)

(** With everything failing the run still ends with status partial. *)
Example crawl_every_item_fails :
  Scraper.returned
    <$> Scraper.run_crawler Config.settings Samples.items_down 5 Samples.empty_db false
  = Some (Returns
            (mkCrawlProgress 1 3 0
               (elements (list_to_set Samples.three_books : gset string))
               PARTIAL)).
Proof. vm_compute. reflexivity. Qed.

(** [fetch_with_retry] reads nothing of the scraper but the retry limit. *)
Lemma fetch_with_retry_config (self self' : BookScraper) (client : Client)
    (url : string) (retries : nat) :
  max_retries self = max_retries self' →
  fetch_with_retry self client url retries
  = fetch_with_retry self' client url retries.
Proof.
  intros Hmax.
  remember (max_retries self - retries) as n eqn:Hn.
  revert retries Hn. induction n as [| n IH]; intros retries Hn;
    rewrite (fetch_with_retry_eqn self), (fetch_with_retry_eqn self');
    destruct (client url retries) as [text | e |]; try done;
    rewrite <- Hmax;
    destruct (decide (retries < max_retries self)); try done; try lia.
  cbn zeta. rewrite (IH (retries + 1)) by lia. done.
Qed.

Lemma task_succeeds_config (w : World) (self self' : BookScraper)
    (task : nat * string) :
  max_retries self = max_retries self' → base_url self = base_url self' →
  task_succeeds w self task = task_succeeds w self' task.
Proof.
  intros Hmax Hbase. unfold task_succeeds.
  by rewrite (fetch_with_retry_config self self' _ _ _ Hmax), Hbase.
Qed.

(** The counters after [scrape_book]. *)
Lemma scrape_book_self (w : World) (i : nat) (self : BookScraper)
    (db : Database) (url : string) :
  (scrape_book w i self db url).1.1 = account w self (i, url).
Proof.
  unfold scrape_book, account, task_succeeds, upsert_book. simpl.
  destruct (fetch_with_retry self (item_client w i) url 0).1 as [html |];
    [| done].
  destruct (not_html html); simpl; [done |].
  destruct (parse_book_details _ _ _ _) as [book_data |]; [| done].
  destruct (Book_validates w book_data); simpl; [| done].
  by destruct (upsert_ok w i).
Qed.

Lemma account_config (w : World) (self : BookScraper) (task : nat * string) :
  max_retries (account w self task) = max_retries self
  ∧ base_url (account w self task) = base_url self
  ∧ total_books (account w self task) = total_books self.
Proof. unfold account. by destruct (task_succeeds w self task). Qed.

Lemma foldl_account_config (w : World) (tasks : list (nat * string))
    (self : BookScraper) :
  max_retries (foldl (account w) self tasks) = max_retries self
  ∧ base_url (foldl (account w) self tasks) = base_url self
  ∧ total_books (foldl (account w) self tasks) = total_books self.
Proof.
  revert self. induction tasks as [| t tasks IH]; intros self; simpl;
    [done |].
  destruct (IH (account w self t)) as (-> & -> & ->). apply account_config.
Qed.

(** The completed count never goes down. *)
Lemma foldl_account_completed_mono (w : World) (tasks : list (nat * string))
    (self : BookScraper) :
  completed_books self ≤ completed_books (foldl (account w) self tasks).
Proof.
  revert self. induction tasks as [| t tasks IH]; intros self; simpl;
    [done |].
  etrans; [| apply IH]. unfold account.
  destruct (task_succeeds w self t); simpl; lia.
Qed.

(** Every task adds one to the completed count or at most one address to
    the failed set. *)
Lemma foldl_account_bound (w : World) (tasks : list (nat * string))
    (self : BookScraper) :
  completed_books (foldl (account w) self tasks)
  + size (failed_urls (foldl (account w) self tasks))
  ≤ completed_books self + size (failed_urls self) + length tasks.
Proof.
  revert self. induction tasks as [| t tasks IH]; intros self; simpl;
    [lia |].
  etrans; [apply IH |]. unfold account.
  destruct (task_succeeds w self t); simpl; [lia |].
  pose proof (size_union_alt ({[t.2]} : gset string) (failed_urls self)) as Hu.
  assert (failed_urls self ∖ {[t.2]} ⊆ failed_urls self) as Hs.
  { intros url Hurl. by apply elem_of_difference in Hurl as [? _]. }
  apply subseteq_size in Hs.
  rewrite size_singleton in Hu. lia.
Qed.

(** When the addresses are pairwise distinct and none has failed before,
    both sides are equal. *)
Lemma foldl_account_exact (w : World) (tasks : list (nat * string))
    (self : BookScraper) :
  NoDup tasks.*2 →
  (∀ url, url ∈ tasks.*2 → url ∉ failed_urls self) →
  completed_books (foldl (account w) self tasks)
  + size (failed_urls (foldl (account w) self tasks))
  = completed_books self + size (failed_urls self) + length tasks.
Proof.
  revert self. induction tasks as [| t tasks IH]; intros self Hnd Hfresh;
    simpl; [lia |].
  simpl in Hnd. apply NoDup_cons in Hnd as [Hnotin Hnd].
  rewrite IH; [| done |].
  - unfold account. destruct (task_succeeds w self t); simpl; [lia |].
    rewrite size_union, size_singleton; [lia |].
    apply disjoint_singleton_l, Hfresh. simpl. left.
  - intros url Hurl. unfold account.
    destruct (task_succeeds w self t); simpl.
    + apply Hfresh. simpl. by right.
    + apply not_elem_of_union. split.
      * apply not_elem_of_singleton. by intros ->.
      * apply Hfresh. simpl. by right.
Qed.

(** The order in which the tasks of a batch update the counters makes no
    difference: the counters after [gather] are the same for every order
    of completion. *)
Lemma account_comm (w : World) (self : BookScraper) (t1 t2 : nat * string) :
  account w (account w self t1) t2 = account w (account w self t2) t1.
Proof.
  unfold account.
  assert (∀ s t, task_succeeds w (completed_books_incr s) t
                 = task_succeeds w s t) as Hc
    by (intros; by apply task_succeeds_config).
  assert (∀ s u t, task_succeeds w (failed_urls_add s u) t
                   = task_succeeds w s t) as Hf
    by (intros; by apply task_succeeds_config).
  destruct (task_succeeds w self t1) eqn:E1,
           (task_succeeds w self t2) eqn:E2;
    rewrite ?Hc, ?Hf, ?E1, ?E2; try done.
  unfold failed_urls_add; simpl. f_equal.
  rewrite !(assoc_L (∪)). f_equal. apply (comm_L (∪)).
Qed.

Lemma foldl_account_perm (w : World) (tasks tasks' : list (nat * string))
    (self : BookScraper) :
  tasks ≡ₚ tasks' →
  foldl (account w) self tasks = foldl (account w) self tasks'.
Proof.
  intros Hp. revert self.
  induction Hp as [| t l l' _ IH | t1 t2 l | l1 l2 l3 _ IH1 _ IH2];
    intros self; simpl.
  - done.
  - apply IH.
  - by rewrite account_comm.
  - by rewrite IH1.
Qed.

(** [gather] accounts for the tasks of the batch, one after the other,
    and persists nothing. *)
Lemma gather_spec (w : World) (batch : list (nat * string)) (st : LoopState) :
  ls_self (gather w st batch) = foldl (account w) (ls_self st) batch
  ∧ ls_persisted (gather w st batch) = ls_persisted st
  ∧ ls_saves (gather w st batch) = ls_saves st
  ∧ ls_scraped (gather w st batch) = ls_scraped st ++ batch.*2.
Proof.
  unfold gather. revert st.
  induction batch as [| [i url] batch IH]; intros st; simpl.
  - by rewrite app_nil_r.
  - pose proof (scrape_book_self w i (ls_self st) (ls_db st) url) as Hself.
    destruct (scrape_book w i (ls_self st) (ls_db st) url)
      as [[self' db'] book]. simpl in Hself. subst self'.
    destruct (IH (mkLoopState (account w (ls_self st) (i, url)) db'
                    (ls_persisted st) (ls_saves st)
                    (ls_scraped st ++ [url]))) as (-> & -> & -> & ->).
    simpl. by rewrite <- app_assoc.
Qed.

(** *** The batch loop *)

Lemma imap_pair_snd {A} (l : list A) (k : nat) :
  (imap (λ i x, (k + i, x)) l).*2 = l.
Proof.
  revert k. induction l as [| x l IH]; intros k; [done |].
  rewrite imap_cons. simpl. f_equal.
  rewrite <- (IH (S k)) at 2. f_equal. apply imap_ext.
  intros i y _. simpl. f_equal. lia.
Qed.

(** The batches cover the task list. *)
Lemma batches_cover (n : nat) :
  n ≤ ((n - 0 + batch_size - 1) / batch_size) * batch_size.
Proof.
  unfold batch_size.
  pose proof (Nat.div_mod_eq (n - 0 + 50 - 1) 50) as Hdiv.
  pose proof (Nat.mod_upper_bound (n - 0 + 50 - 1) 50). lia.
Qed.

#[local] Opaque batch_size.

(** The first [m] turns of the loop of [crawl_discovered]. *)
Lemma batch_loop_spec (w : World) (tasks : list (nat * string))
    (self : BookScraper) (db : Database) (m : nat) :
  let st :=
    foldl (λ st i,
             let batch := py_slice tasks i (i + batch_size) in
             let st := gather w st batch in
             let progress :=
               make_progress (clock w (ls_saves st)) (ls_self st) in
             save_crawl_progress w st progress)
          (mkLoopState self db [] 0 [])
          ((λ k, 0 + k * batch_size) <$> seq 0 m) in
  ls_self st = foldl (account w) self (take (m * batch_size) tasks)
  ∧ ls_saves st = m
  ∧ ls_scraped st = (take (m * batch_size) tasks).*2
  ∧ ls_persisted st
    = snapshot_after w self tasks
      <$> filter (λ j, save_ok w j = true) (seq 0 m).
Proof.
  induction m as [| m IH]; [done |].
  rewrite seq_S, fmap_app, foldl_app. simpl.
  set (st := foldl _ _ _) in *. cbn zeta in IH.
  destruct IH as (Hself & Hsaves & Hscraped & Hpers).
  replace (py_slice tasks (m * batch_size) (m * batch_size + batch_size))
    with (take batch_size (drop (m * batch_size) tasks))
    by (unfold py_slice; f_equal; lia).
  destruct (gather_spec w (take batch_size (drop (m * batch_size) tasks)) st)
    as (Hg1 & Hg2 & Hg3 & Hg4).
  assert (take (batch_size + m * batch_size) tasks
          = take (m * batch_size) tasks
            ++ take batch_size (drop (m * batch_size) tasks)) as Htake.
  { rewrite take_take_drop. f_equal. lia. }
  unfold save_crawl_progress. rewrite Hg3, Hsaves, Hg2, Hg1, Hg4.
  rewrite filter_app, fmap_app, Htake, foldl_app, fmap_app.
  rewrite Hself, Hscraped, Hpers.
  rewrite filter_cons, filter_nil.
  assert (snapshot_after w self tasks m
          = make_progress (clock w m)
              (foldl (account w)
                 (foldl (account w) self (take (m * batch_size) tasks))
                 (take batch_size (drop (m * batch_size) tasks)))) as Hsnap.
  { unfold snapshot_after.
    replace ((m + 1) * batch_size) with (batch_size + m * batch_size) by lia.
    by rewrite Htake, foldl_app. }
  destruct (save_ok w m) eqn:Hok; simpl; repeat split; try done.
  - by rewrite Hsnap.
  - by rewrite app_nil_r.
Qed.

(** The run after discovery, in closed form: the tasks are the scheduled
    addresses in order; the counters account for each of them once; a
    snapshot is built after every batch and once more at the end, and the
    ones whose write succeeds are persisted. *)
Lemma crawl_discovered_spec (w : World) (self : BookScraper) (db : Database)
    (resume : bool) (D : list string) :
  let self0 := total_books_set self (length D) in
  let urls :=
    if resume then filter (λ url, url ∉ dom (books db)) D else D in
  let tasks := imap (λ i url, (i, url)) urls in
  let m := (length tasks - 0 + batch_size - 1) / batch_size in
  let run := crawl_discovered w self db resume D in
  returned run = Returns (snapshot_after w self0 tasks m)
  ∧ ls_persisted (run_state run)
    = snapshot_after w self0 tasks
      <$> filter (λ j, save_ok w j = true) (seq 0 (S m))
  ∧ ls_self (run_state run) = foldl (account w) self0 tasks
  ∧ ls_scraped (run_state run) = urls.
Proof.
  intros self0 urls tasks m run.
  unfold run, crawl_discovered, py_range.
  fold self0. fold urls. fold tasks. fold m.
  destruct (batch_loop_spec w tasks self0 db m) as (Hself & Hsaves & Hscr & Hp).
  cbn zeta in *. set (st := foldl _ _ _) in *.
  assert (take (m * batch_size) tasks = tasks) as Hall.
  { apply take_ge. apply batches_cover. }
  assert (take ((m + 1) * batch_size) tasks = tasks) as Hall'.
  { apply take_ge. pose proof (batches_cover (length tasks)). fold m in H. lia. }
  rewrite Hall in *.
  assert (make_progress (clock w (ls_saves st)) (ls_self st)
          = snapshot_after w self0 tasks m) as Hfinal.
  { unfold snapshot_after. by rewrite Hall', Hsaves, Hself. }
  rewrite Hfinal. split; [done |].
  unfold save_crawl_progress. rewrite Hsaves, seq_S, filter_app, fmap_app.
  rewrite filter_cons, filter_nil. simpl.
  assert (tasks.*2 = urls) as Hurls by apply (imap_pair_snd urls 0).
  destruct (save_ok w m) eqn:Hok; simpl; rewrite Hp, Hself, Hscr, Hurls;
    repeat split; try done.
  by rewrite app_nil_r.
Qed.

(** A run either raises before anything is persisted, or is the run that
    follows the discovery of some address list. *)
Lemma run_crawler_cases (s : Config.Settings) (w : World) (fuel : nat)
    (db : Database) (resume : bool) (run : CrawlRun) :
  run_crawler s w fuel db resume = Some run →
  (returned run = Raises ∧ ls_persisted (run_state run) = []
   ∧ ls_scraped (run_state run) = [])
  ∨ ∃ D,
      connect_ok w = true
      ∧ get_all_book_urls w (BookScraper_init s) fuel
        = Some (Returns D)
      ∧ run = crawl_discovered w (BookScraper_init s) db resume D.
Proof.
  unfold run_crawler, crawl_all_books.
  destruct (connect_ok w); [| intros [= <-]; by left].
  destruct (get_all_book_urls _ _ _) as [[D |] |]; [| | done].
  - intros [= <-]. right. by exists D.
  - intros [= <-]. by left.
Qed.

(** More fuel does not change a discovery that has ended. *)
Lemma pages_loop_fuel_mono (w : World) (self : BookScraper)
    (fuel fuel' k : nat) (current_url : option string)
    (all_book_urls : list string) (r : result (list string)) :
  pages_loop w self fuel k current_url all_book_urls = Some r →
  fuel ≤ fuel' →
  pages_loop w self fuel' k current_url all_book_urls = Some r.
Proof.
  revert fuel' k current_url all_book_urls.
  induction fuel as [| fuel IH]; intros fuel' k [url |] all_urls Hrun Hle;
    destruct fuel' as [| fuel']; simpl in *; try done; try lia.
  - by case_bool_decide.
  - case_bool_decide; [done |].
    destruct (fetch_with_retry self (page_client w k) url 0).1 as [html |];
      [| done].
    destruct (not_html html); [done |]. apply IH; [done | lia].
Qed.

Lemma run_crawler_fuel_mono (s : Config.Settings) (w : World)
    (fuel fuel' : nat) (db : Database) (resume : bool) (run : CrawlRun) :
  run_crawler s w fuel db resume = Some run →
  fuel ≤ fuel' →
  run_crawler s w fuel' db resume = Some run.
Proof.
  unfold run_crawler, crawl_all_books, get_all_book_urls.
  destruct (connect_ok w); [| done].
  destruct (pages_loop _ _ fuel _ _ _) as [r |] eqn:Hloop; [| done].
  intros Hrun Hle. by rewrite (pages_loop_fuel_mono _ _ _ _ _ _ _ _ Hloop Hle).
Qed.

(** Every snapshot of a run after discovery is built after some batch. *)
Lemma crawl_discovered_snapshots (w : World) (self : BookScraper)
    (db : Database) (resume : bool) (D : list string) (p : CrawlProgress) :
  let run := crawl_discovered w self db resume D in
  p ∈ ls_persisted (run_state run) ∨ returned run = Returns p →
  ∃ j urls,
    urls `sublist_of` D
    ∧ p = snapshot_after w (total_books_set self (length D))
            (imap (λ i url, (i, url)) urls) j.
Proof.
  intros run.
  destruct (crawl_discovered_spec w self db resume D)
    as (Hret & Hpers & _ & _). cbn zeta in *. fold run in Hret, Hpers.
  set (urls := if resume then _ else D) in *.
  assert (urls `sublist_of` D) as Hsub.
  { unfold urls. destruct resume; [apply sublist_filter | done]. }
  intros [Hin | Hp].
  - rewrite Hpers in Hin. apply list_elem_of_fmap in Hin as (j & -> & _).
    by exists j, urls.
  - rewrite Hret in Hp. injection Hp as <-. by eexists _, urls.
Qed.

Lemma make_progress_status (now : Z) (self : BookScraper) :
  let p := make_progress now self in
  (status p = PARTIAL ↔ failed_pages p ≠ [])
  ∧ status p ≠ FAILED
  ∧ status p = if bool_decide (failed_pages p = []) then SUCCESS else PARTIAL.
Proof.
  unfold make_progress; simpl.
  pose proof (elements_empty_iff (failed_urls self)) as Hel.
  rewrite leibniz_equiv_iff in Hel.
  repeat case_bool_decide; repeat split; try done; tauto.
Qed.

(** The counters of a snapshot, for a scraper that entered the loop with
    nothing completed and nothing failed. *)
Lemma snapshot_after_counts (w : World) (self : BookScraper)
    (tasks : list (nat * string)) (j : nat) :
  completed_books self = 0 → failed_urls self = ∅ →
  let p := snapshot_after w self tasks j in
  total_pages p = total_books self
  ∧ completed_pages p + length (failed_pages p) ≤ length tasks
  ∧ (NoDup tasks.*2 → length tasks ≤ (j + 1) * batch_size →
     completed_pages p + length (failed_pages p) = length tasks).
Proof.
  intros Hc Hf. unfold snapshot_after, make_progress; simpl.
  set (prefix := take _ tasks).
  destruct (foldl_account_config w prefix self) as (_ & _ & ->).
  split; [done |].
  pose proof (foldl_account_bound w prefix self) as Hb.
  rewrite Hc, Hf, size_empty in Hb.
  change (length (elements ?X)) with (size X).
  split.
  - etrans; [apply Hb |]. unfold prefix. rewrite length_take. lia.
  - intros Hnd Hlen. unfold prefix. rewrite take_ge by done.
    rewrite foldl_account_exact; [| done |].
    + rewrite Hc, Hf, size_empty. lia.
    + intros url _. rewrite Hf. apply not_elem_of_empty.
Qed.

(** Later snapshots account for longer prefixes of the task list. *)
Lemma snapshot_after_mono (w : World) (self : BookScraper)
    (tasks : list (nat * string)) (i j : nat) :
  i ≤ j →
  completed_pages (snapshot_after w self tasks i)
  ≤ completed_pages (snapshot_after w self tasks j).
Proof.
  intros (d & -> & _)%Nat.le_exists_sub.
  unfold snapshot_after, make_progress; simpl.
  replace ((d + i + 1) * batch_size)
    with ((i + 1) * batch_size + d * batch_size) by lia.
  rewrite <- take_take_drop, foldl_app.
  apply foldl_account_completed_mono.
Qed.

Lemma StronglySorted_fmap_filter_seq {B} (R : relation B) (f : nat → B)
    (P : nat → Prop) `{!∀ j, Decision (P j)} (a n : nat) :
  (∀ i j, i ≤ j → R (f i) (f j)) →
  StronglySorted R (f <$> filter P (seq a n)).
Proof.
  intros Hmono. induction n as [| n IH]; [constructor |].
  rewrite seq_S, filter_app, fmap_app. apply StronglySorted_app.
  split; [| split; [done |]].
  - intros x y (i & -> & Hi)%list_elem_of_fmap (j & -> & Hj)%list_elem_of_fmap.
    apply Hmono.
    apply list_elem_of_filter in Hi as [_ Hi%elem_of_seq].
    apply list_elem_of_filter in Hj as [_ Hj%list_elem_of_singleton]. lia.
  - rewrite filter_cons, filter_nil.
    destruct (decide (P (a + n))); simpl; repeat constructor.
Qed.

(** C7.  Across every run, the completed counts of the successive
    persisted snapshots never go down. *)
Theorem progress_monotone (s : Config.Settings) (w : World) (fuel : nat)
    (db : Database) (resume : bool) :
  StronglySorted le
    (completed_pages <$> persisted_snapshots s w fuel db resume).
Proof.
  unfold persisted_snapshots.
  destruct (run_crawler s w fuel db resume) as [run |] eqn:Hrun;
    [| constructor].
  apply run_crawler_cases in Hrun as [(_ & -> & _) | (D & _ & _ & ->)];
    [constructor |].
  destruct (crawl_discovered_spec w (BookScraper_init s) db
              resume D) as (_ & -> & _).
  rewrite <- list_fmap_compose.
  apply StronglySorted_fmap_filter_seq.
  intros i j Hij. simpl. by apply snapshot_after_mono.
Qed.

(** C10.  Every snapshot a run persists, and the one it returns, has
    status success or partial according to whether its list of failed
    addresses is empty; the status failed is never written. *)
Theorem status_success_or_partial (s : Config.Settings) (w : World)
    (fuel : nat) (db : Database) (resume : bool) (run : CrawlRun)
    (p : CrawlProgress) :
  run_crawler s w fuel db resume = Some run →
  p ∈ ls_persisted (run_state run) ∨ returned run = Returns p →
  status p ≠ FAILED
  ∧ status p = if bool_decide (failed_pages p = []) then SUCCESS else PARTIAL.
Proof.
  intros Hrun Hp.
  apply run_crawler_cases in Hrun as [(Hr & Hn & _) | (D & _ & _ & ->)].
  - destruct Hp as [Hp | Hp].
    + rewrite Hn in Hp. by apply elem_of_nil in Hp.
    + by rewrite Hr in Hp.
  - apply crawl_discovered_snapshots in Hp as (j & urls & _ & ->).
    unfold snapshot_after. by destruct (make_progress_status
      (clock w j) (foldl (account w)
        (total_books_set (BookScraper_init s) (length D))
        (take ((j + 1) * batch_size) (imap (λ i url, (i, url)) urls))))
      as (_ & ? & ?).
Qed.

(** With the listing served and every book page unreachable, all three
    items fail, and every snapshot says partial. *)
Lemma status_success_or_partial_witness :
  ∃ run p,
    run_crawler Config.settings Samples.items_down 5 Samples.empty_db false = Some run
    ∧ returned run = Returns p
    ∧ completed_pages p = 0
    ∧ length (failed_pages p) = total_pages p
    ∧ status p = PARTIAL
    ∧ Forall (λ q, status q ≠ FAILED ∧ status q = PARTIAL)
             (ls_persisted (run_state run)).
Proof.
  assert (is_Some (run_crawler Config.settings Samples.items_down 5 Samples.empty_db false))
    as [run Hrun] by (vm_compute; eauto).
  assert (∃ p, returned run = Returns p ∧ completed_pages p = 0
               ∧ length (failed_pages p) = total_pages p
               ∧ failed_pages p ≠ []) as (p & Hp & Hc & Hl & Hf).
  { revert Hrun. vm_compute. intros [= <-]. eexists. repeat split. done. }
  assert (Forall (λ q, failed_pages q ≠ []) (ls_persisted (run_state run)))
    as Hall.
  { revert Hrun. vm_compute. intros [= <-]. repeat constructor; done. }
  exists run, p. repeat split; try done.
  - destruct (status_success_or_partial Config.settings Samples.items_down 5
                Samples.empty_db false run p Hrun (or_intror Hp)) as [_ ->].
    by rewrite bool_decide_eq_false_2.
  - apply Forall_forall. intros q Hq.
    destruct (status_success_or_partial Config.settings Samples.items_down 5
                Samples.empty_db false run q Hrun (or_introl Hq)) as [_ ->].
    rewrite Forall_forall in Hall.
    by rewrite bool_decide_eq_false_2 by by apply Hall.
Defined.

(** C6, the equality as stated, refuted: the first of three discovered
    books is already stored, the run resumes, handles the other two (one
    succeeds, one fails) and finishes with 1 + 1 < 3. *)
Lemma resumed_run_finishes_below_total :
  ∃ run p,
    run_crawler Config.settings Samples.site_up 5 Samples.first_book_stored
      true = Some run
    ∧ returned run = Returns p
    ∧ total_pages p = 3
    ∧ completed_pages p + length (failed_pages p) = 2.
Proof. eexists _, _. repeat split; vm_compute; reflexivity. Qed.

(** C6, as amended.  For every snapshot a run persists, and for the one
    it returns: completed is at most total; the status is partial exactly
    when the list of failed addresses is not empty; completed plus failed
    is at most total.  For the returned snapshot equality holds when every
    discovered address was handed to [scrape_book] (resume skipped none)
    and these addresses are pairwise distinct. *)
Theorem crawl_progress_invariants (s : Config.Settings) (w : World)
    (fuel : nat) (db : Database) (resume : bool) (run : CrawlRun)
    (p : CrawlProgress) :
  run_crawler s w fuel db resume = Some run →
  p ∈ ls_persisted (run_state run) ∨ returned run = Returns p →
  completed_pages p ≤ total_pages p
  ∧ (status p = PARTIAL ↔ failed_pages p ≠ [])
  ∧ completed_pages p + length (failed_pages p) ≤ total_pages p
  ∧ (returned run = Returns p →
     NoDup (ls_scraped (run_state run)) →
     length (ls_scraped (run_state run)) = total_pages p →
     completed_pages p + length (failed_pages p) = total_pages p).
Proof.
  intros Hrun Hp.
  apply run_crawler_cases in Hrun as [(Hr & Hn & _) | (D & _ & _ & ->)].
  { destruct Hp as [Hp | Hp].
    - rewrite Hn in Hp. by apply elem_of_nil in Hp.
    - by rewrite Hr in Hp. }
  set (self0 := total_books_set (BookScraper_init s) (length D)).
  assert (∀ tasks j,
            total_pages (snapshot_after w self0 tasks j) = length D) as Htotal.
  { intros tasks j.
    by destruct (snapshot_after_counts w self0 tasks j eq_refl eq_refl)
      as (-> & _). }
  assert (completed_pages p + length (failed_pages p) ≤ total_pages p
          ∧ (status p = PARTIAL ↔ failed_pages p ≠ [])) as [Hle Hst].
  { apply crawl_discovered_snapshots in Hp as (j & urls & Hsub & ->).
    fold self0. rewrite Htotal. split.
    - destruct (snapshot_after_counts w self0 (imap (λ i url, (i, url)) urls)
                  j eq_refl eq_refl) as (_ & Hb & _).
      etrans; [apply Hb |]. rewrite length_imap. by apply sublist_length.
    - unfold snapshot_after. apply make_progress_status. }
  split; [lia |]. split; [done |]. split; [done |].
  intros Hret Hnd Hlen.
  destruct (crawl_discovered_spec w (BookScraper_init s) db
              resume D) as (Hret' & _ & _ & Hscr). cbn zeta in *.
  fold self0 in Hret'. rewrite Hret' in Hret. injection Hret as <-.
  rewrite Hscr in Hnd, Hlen. rewrite Htotal in *.
  set (urls := if resume then _ else D) in *.
  set (tasks := imap (λ i url, (i, url)) urls) in *.
  destruct (snapshot_after_counts w self0 tasks
              ((length tasks - 0 + batch_size - 1) / batch_size)
              eq_refl eq_refl) as (_ & _ & Heq).
  rewrite Heq.
  - unfold tasks. by rewrite length_imap.
  - assert (tasks.*2 = urls) as -> by apply (imap_pair_snd urls 0). done.
  - pose proof (batches_cover (length tasks)). lia.
Qed.

Lemma crawl_progress_invariants_witness :
  ∃ run p,
    run_crawler Config.settings Samples.site_up 5 Samples.empty_db false = Some run
    ∧ returned run = Returns p
    ∧ completed_pages p ≤ total_pages p
    ∧ (status p = PARTIAL ↔ failed_pages p ≠ [])
    ∧ completed_pages p + length (failed_pages p) = total_pages p.
Proof.
  assert (is_Some (run_crawler Config.settings Samples.site_up 5 Samples.empty_db false))
    as [run Hrun] by (vm_compute; eauto).
  assert (∃ p, returned run = Returns p
               ∧ NoDup (ls_scraped (run_state run))
               ∧ length (ls_scraped (run_state run)) = total_pages p)
    as (p & Hp & Hnd & Hlen).
  { revert Hrun. vm_compute. intros [= <-]. eexists. split; [done |].
    split; [| done]. apply (bool_decide_unpack _). vm_compute. exact I. }
  exists run, p.
  destruct (crawl_progress_invariants Config.settings Samples.site_up 5
              Samples.empty_db false run p Hrun (or_intror Hp))
    as (H1 & H2 & _ & H4).
  split; [exact Hrun |]. split; [exact Hp |]. split; [exact H1 |].
  split; [exact H2 |]. exact (H4 Hp Hnd Hlen).
Defined.

(** C4.  A run with [resume=True] hands to [scrape_book] exactly the
    discovered addresses that are not keys of the store, in the order of
    discovery; what the stored records contain makes no difference. *)
Theorem resume_processes_unstored (w : World) (fuel : nat)
    (self : BookScraper) (db : Database) (D : list string) :
  connect_ok w = true →
  get_all_book_urls w self fuel = Some (Returns D) →
  ∃ run,
    crawl_all_books w fuel self db true = Some run
    ∧ ls_scraped (run_state run) = filter (λ url, url ∉ dom (books db)) D
    ∧ (∀ url, url ∈ ls_scraped (run_state run)
              ↔ url ∈ D ∧ books db !! url = None)
    ∧ ∀ refresh : Book → Book,
        ∃ run',
          crawl_all_books w fuel self (restock refresh db) true = Some run'
          ∧ ls_scraped (run_state run') = ls_scraped (run_state run).
Proof.
  intros Hconn Hdisc. unfold crawl_all_books. rewrite Hconn, Hdisc.
  eexists. split; [reflexivity |].
  destruct (crawl_discovered_spec w self db true D) as (_ & _ & _ & Hscr).
  cbn zeta in Hscr. rewrite Hscr. split; [done |]. split.
  - intros url. rewrite list_elem_of_filter, not_elem_of_dom. tauto.
  - intros refresh. eexists. split; [reflexivity |].
    destruct (crawl_discovered_spec w self (restock refresh db) true D)
      as (_ & _ & _ & Hscr').
    cbn zeta in Hscr'. rewrite Hscr'. simpl. by rewrite dom_fmap_L.
Qed.

Lemma resume_processes_unstored_witness :
  ∃ run,
    crawl_all_books Samples.site_up 5 (BookScraper_init Config.settings)
      Samples.first_book_stored true = Some run
    ∧ ls_scraped (run_state run)
      = ["https://books.toscrape.com/catalogue/b/index.html";
         "https://books.toscrape.com/catalogue/c/index.html"].
Proof.
  destruct (resume_processes_unstored Samples.site_up 5
              (BookScraper_init Config.settings) Samples.first_book_stored
              Samples.three_books) as (run & Hrun & Hscr & _).
  - reflexivity.
  - vm_compute. reflexivity.
  - exists run. split; [exact Hrun |]. rewrite Hscr. vm_compute. reflexivity.
Defined.

(** C1, as stated, refuted: with the site down the fetch of the first
    listing page returns nothing, and the run goes on to completion and
    reports success. *)
Lemma first_page_failure_run_reports_success :
  (fetch_with_retry (BookScraper_init Config.settings)
     (page_client Samples.site_down 0)
     "https://books.toscrape.com/catalogue/page-1.html" 0).1
  = Returns None
  ∧ ∃ st,
      run_crawler Config.settings Samples.site_down 1 Samples.empty_db false
      = Some (mkCrawlRun (Returns (mkCrawlProgress 0 0 0 [] SUCCESS)) st)
      ∧ ls_persisted st = [mkCrawlProgress 0 0 0 [] SUCCESS].
Proof.
  split; [vm_compute; reflexivity |].
  eexists. split; vm_compute; reflexivity.
Qed.

(** C1, as amended.  When the fetch of the first listing page returns no
    content, discovery stops there with no address, as it does for a later
    page; the run hands nothing to [scrape_book], builds the one final
    snapshot, with nothing to do, nothing completed, nothing failed and
    status success, persists it if the write succeeds, and returns it. *)
Theorem first_page_failure_yields_empty_run (s : Config.Settings) (w : World)
    (fuel : nat) (db : Database) (resume : bool) (html : option string) :
  connect_ok w = true →
  0 < fuel →
  (fetch_with_retry (BookScraper_init s) (page_client w 0)
     (urljoin w (Config.base_url s) "catalogue/page-1.html")
     0).1 = Returns html →
  not_html html = true →
  ∃ st,
    run_crawler s w fuel db resume
    = Some (mkCrawlRun
              (Returns (mkCrawlProgress (clock w 0) 0 0 [] SUCCESS)) st)
    ∧ ls_scraped st = []
    ∧ books (ls_db st) = books db
    ∧ ls_persisted st
      = if save_ok w 0 then [mkCrawlProgress (clock w 0) 0 0 [] SUCCESS]
        else [].
Proof.
  intros Hconn Hfuel Hfetch Hnot.
  unfold run_crawler, crawl_all_books, get_all_book_urls. rewrite Hconn.
  destruct fuel as [| fuel]; [lia |]. simpl pages_loop.
  change (base_url (BookScraper_init s)) with (Config.base_url s).
  rewrite Hfetch, Hnot.
  assert (crawl_discovered w (BookScraper_init s) db resume []
          = mkCrawlRun
              (Returns (mkCrawlProgress (clock w 0) 0 0 [] SUCCESS))
              (save_crawl_progress w
                 (mkLoopState
                    (total_books_set (BookScraper_init s) 0)
                    db [] 0 [])
                 (mkCrawlProgress (clock w 0) 0 0 [] SUCCESS))) as Hrun.
  { unfold crawl_discovered. by destruct resume. }
  eexists. split.
  - case_bool_decide; rewrite Hrun; reflexivity.
  - unfold save_crawl_progress. simpl. by destruct (save_ok w 0).
Qed.

Lemma first_page_failure_yields_empty_run_witness :
  ∃ st,
    run_crawler Config.settings Samples.site_down 1 Samples.empty_db true
    = Some (mkCrawlRun (Returns (mkCrawlProgress 0 0 0 [] SUCCESS)) st)
    ∧ ls_scraped st = [].
Proof.
  destruct (first_page_failure_yields_empty_run Config.settings
              Samples.site_down 1
              Samples.empty_db true None) as (st & Hrun & Hscr & _).
  - reflexivity.
  - lia.
  - vm_compute. reflexivity.
  - reflexivity.
  - exists st. split; [exact Hrun | exact Hscr].
Defined.

(** * Further properties of the code *)

(** ** The API keys *)

Lemma split_not_nil (sep : ascii) (s : string) : Auth.split sep s ≠ [].
Proof.
  destruct s as [| c s]; simpl; [done |].
  case_bool_decide; [done |]. by destruct (Auth.split sep s).
Qed.

(** No piece of a split contains the separator. *)
Lemma split_no_sep (sep : ascii) (s piece : string) :
  piece ∈ Auth.split sep s → sep ∉ list_ascii_of_string piece.
Proof.
  revert piece. induction s as [| c s IH]; intros piece; simpl.
  - intros ->%list_elem_of_singleton. simpl. apply not_elem_of_nil.
  - case_bool_decide as Hc.
    + intros [-> | Hin]%elem_of_cons; [apply not_elem_of_nil | by apply IH].
    + destruct (Auth.split sep s) as [| p ps] eqn:Hs.
      * by destruct (split_not_nil sep s).
      * intros [-> | Hin]%elem_of_cons.
        -- simpl. apply not_elem_of_cons. split; [done |].
           apply IH. by left.
        -- apply IH. by right.
Qed.

Lemma lstrip_chars (s : string) (c : ascii) :
  c ∈ list_ascii_of_string (Auth.lstrip s) → c ∈ list_ascii_of_string s.
Proof.
  induction s as [| a s IH]; simpl; [done |].
  destruct (Auth.is_space a); [| done]. intros Hc. right. by apply IH.
Qed.

Lemma rstrip_chars (s : string) (c : ascii) :
  c ∈ list_ascii_of_string (Auth.rstrip s) → c ∈ list_ascii_of_string s.
Proof.
  induction s as [| a s IH]; simpl; [done |].
  destruct (Auth.is_space a && bool_decide (Auth.rstrip s = "")); simpl.
  - by intros ?%elem_of_nil.
  - intros [-> | Hc]%elem_of_cons; [by left | right; by apply IH].
Qed.

Lemma lstrip_starts_clean (s : string) : Auth.starts_clean (Auth.lstrip s).
Proof.
  induction s as [| a s IH]; simpl; [done |].
  by destruct (Auth.is_space a) eqn:Ha; simpl.
Qed.

Lemma lstrip_clean (s : string) : Auth.starts_clean s → Auth.lstrip s = s.
Proof. destruct s as [| a s]; simpl; [done |]. by intros ->. Qed.

Lemma rstrip_starts_clean (s : string) :
  Auth.starts_clean s → Auth.starts_clean (Auth.rstrip s).
Proof.
  destruct s as [| a s]; simpl; [done |].
  intros Ha. rewrite Ha. simpl. exact Ha.
Qed.

Lemma rstrip_idemp (s : string) :
  Auth.rstrip (Auth.rstrip s) = Auth.rstrip s.
Proof.
  induction s as [| a s IH]; simpl; [done |].
  destruct (Auth.is_space a) eqn:Ha; simpl.
  - case_bool_decide as Hr; simpl; [done |].
    rewrite IH, Ha. simpl. by rewrite bool_decide_eq_false_2.
  - by rewrite IH, Ha.
Qed.

Lemma strip_idemp (s : string) : Auth.strip (Auth.strip s) = Auth.strip s.
Proof.
  unfold Auth.strip.
  rewrite (lstrip_clean (Auth.rstrip (Auth.lstrip s)))
    by apply rstrip_starts_clean, lstrip_starts_clean.
  apply rstrip_idemp.
Qed.

(** Every key of the list is well formed, whatever [api_keys] holds. *)
Lemma api_keys_list_ok (api_keys key : string) :
  key ∈ Auth.api_keys_list api_keys → Auth.key_ok key.
Proof.
  unfold Auth.api_keys_list.
  intros [Hne (piece & -> & Hpiece)%list_elem_of_fmap]%list_elem_of_filter.
  split; [done |]. split; [| apply strip_idemp].
  intros Hc. apply (split_no_sep _ _ _ Hpiece).
  by apply lstrip_chars, rstrip_chars.
Qed.

(** X1.  Whatever the configured [api_keys], [verify_api_key] accepts only
    a key that is not empty, contains no comma and has no white space at
    either end; it returns the key it was given. *)
Theorem verify_api_key_accepts_only_clean_keys (api_keys api_key key : string) :
  Auth.verify_api_key api_keys api_key = Auth.Accepted key →
  key = api_key ∧ Auth.key_ok api_key
  ∧ api_key ∈ Auth.api_keys_list api_keys.
Proof.
  unfold Auth.verify_api_key. case_bool_decide as Hin; [done |].
  intros [= <-].
  split; [done |]. split; [by eapply api_keys_list_ok | done].
Qed.

Lemma verify_api_key_accepts_only_clean_keys_witness :
  "dev_key_123" = "dev_key_123" ∧ Auth.key_ok "dev_key_123"
  ∧ "dev_key_123" ∈ Auth.api_keys_list Auth.default_api_keys.
Proof.
  apply (verify_api_key_accepts_only_clean_keys Auth.default_api_keys
           "dev_key_123" "dev_key_123").
  vm_compute. reflexivity.
Defined.

Lemma split_without_sep (sep : ascii) (s : string) :
  sep ∉ list_ascii_of_string s → Auth.split sep s = [s].
Proof.
  induction s as [| c s IH]; simpl; [done |].
  intros [Hc Hs]%not_elem_of_cons.
  rewrite bool_decide_eq_false_2 by done. by rewrite IH.
Qed.

Lemma split_app_sep (sep : ascii) (s t : string) :
  sep ∉ list_ascii_of_string s →
  Auth.split sep (s +:+ String sep t) = s :: Auth.split sep t.
Proof.
  induction s as [| c s IH]; simpl.
  - intros _. by rewrite bool_decide_eq_true_2.
  - intros [Hc Hs]%not_elem_of_cons.
    rewrite bool_decide_eq_false_2 by done. by rewrite IH.
Qed.

Lemma split_join (sep : ascii) (pieces : list string) :
  pieces ≠ [] →
  Forall (λ piece, sep ∉ list_ascii_of_string piece) pieces →
  Auth.split sep (Auth.join sep pieces) = pieces.
Proof.
  induction pieces as [| p [| q rest] IH]; [done | |]; intros _ Hall.
  - simpl. apply split_without_sep. by apply Forall_inv in Hall.
  - apply Forall_cons in Hall as [Hp Hall].
    change (Auth.join sep (p :: q :: rest))
      with (p +:+ String sep (Auth.join sep (q :: rest))).
    rewrite split_app_sep by done. by rewrite IH.
Qed.

(** X2.  Writing well-formed keys into [api_keys] with commas between
    them and reading them back gives the same keys in the same order, and
    each of them is accepted. *)
Theorem api_keys_round_trip (keys : list string) :
  Forall Auth.key_ok keys →
  Auth.api_keys_list (Auth.join Auth.comma keys) = keys
  ∧ ∀ key, key ∈ keys →
      Auth.verify_api_key (Auth.join Auth.comma keys) key = Auth.Accepted key.
Proof.
  intros Hok.
  assert (Auth.api_keys_list (Auth.join Auth.comma keys) = keys) as Hlist.
  { unfold Auth.api_keys_list. destruct keys as [| k keys]; [done |].
    rewrite split_join; [| done |].
    - induction Hok as [| key rest (Hne & _ & Hstrip) _ IH]; [done |].
      rewrite fmap_cons, filter_cons, Hstrip.
      rewrite decide_True by done. by rewrite IH.
    - eapply Forall_impl; [exact Hok |]. by intros key (_ & ? & _). }
  split; [done |]. intros key Hkey.
  unfold Auth.verify_api_key. rewrite Hlist.
  by rewrite bool_decide_eq_false_2 by by intros ?.
Qed.

Lemma api_keys_round_trip_witness :
  Auth.api_keys_list "dev_key_123,ops key" = ["dev_key_123"; "ops key"].
Proof.
  apply (api_keys_round_trip ["dev_key_123"; "ops key"]).
  repeat constructor; try done; apply (bool_decide_unpack _); vm_compute;
    exact I.
Defined.

(** ** The rating *)

Lemma rating_of_range (cls : string) (r : nat) :
  Parser.rating_of cls = Some r → 1 ≤ r ≤ 5.
Proof.
  unfold Parser.rating_of, Parser.RATING_MAP. simpl.
  repeat (case_decide; simpl; [intros [= <-]; lia |]). done.
Qed.

(** [test_rating_extraction] *)
Example test_rating_extraction :
  Parser._extract_rating (Some ["star-rating"; "Four"]) = 4.
Proof. reflexivity. Qed.

(** X3.  The rating extracted is between 1 and 5 whatever the page
    holds, as the [Book] model demands; without a rating element, or with
    one that names no rating, it is 3. *)
Theorem extract_rating_in_range (rating_elem : option (list string)) :
  1 ≤ Parser._extract_rating rating_elem ≤ 5
  ∧ (from_option (λ classes, Forall (λ cls, Parser.rating_of cls = None)
                                    classes) True rating_elem →
     Parser._extract_rating rating_elem = 3).
Proof.
  destruct rating_elem as [classes |]; simpl; [| split; [lia | done]].
  split.
  - induction classes as [| cls classes IH]; simpl; [lia |].
    destruct (Parser.rating_of cls) as [r |] eqn:Hr; simpl; [| done].
    by apply (rating_of_range cls).
  - induction 1 as [| cls classes Hcls _ IH]; simpl; [done |].
    by rewrite Hcls.
Qed.

(** ** The other storage operations *)

(** X4.  No snapshot of a page is ever stored: starting from the handles
    as the constructors leave them, every [store_html_snapshot] call of
    every sequence of connects and stores returns [None], since nothing
    sets [db.sync_client] and so [gridfs] is never created. *)
Theorem html_snapshots_never_stored (put : string → string → option string)
    (ops : list StorageOps.handle_op) :
  Forall (λ id, id = None)
         (StorageOps.run_ops put StorageOps.Handles_init ops).1
  ∧ (StorageOps.run_ops put StorageOps.Handles_init ops).2
    = StorageOps.Handles_init.
Proof.
  induction ops as [| [| url html] ops [IHids IHh]]; simpl.
  - by split.
  - by split.
  - unfold StorageOps.store_html_snapshot. simpl.
    change (StorageOps._init_gridfs StorageOps.Handles_init)
      with StorageOps.Handles_init.
    destruct (StorageOps.run_ops put StorageOps.Handles_init ops)
      as [ids h]. simpl in *. split; [by constructor | done].
Qed.

(** Once [get_sync_client] has been called the store is used. *)
Example snapshot_stored_after_get_sync_client :
  (StorageOps.store_html_snapshot (λ url _, Some url)
     (StorageOps.get_sync_client StorageOps.Handles_init) "u" "<html>").1
  = Some "u".
Proof. reflexivity. Qed.

(** X5.  A book that was upserted is found again under its address, with
    every field as given; the books at other addresses, the change log and
    the progress document are left alone.  A failed upsert changes
    nothing. *)
Theorem upsert_then_get (db : Database) (url url' : string) (book : Book) :
  let db' := (upsert_book true db url book).2 in
  (upsert_book true db url book).1 = true
  ∧ StorageOps.get_book_by_url true db' url = Some book
  ∧ (url' ≠ url →
     StorageOps.get_book_by_url true db' url'
     = StorageOps.get_book_by_url true db url')
  ∧ change_log db' = change_log db
  ∧ crawl_progress db' = crawl_progress db
  ∧ upsert_book false db url book = (false, db).
Proof.
  simpl. repeat split.
  - apply lookup_insert_eq.
  - intros Hne. by apply lookup_insert_ne.
Qed.

(** X6.  Upserting is idempotent and never duplicates: doing it twice is
    doing it once, a later upsert at the same address replaces the earlier
    one, and the number of books grows by one exactly when the address was
    not stored before. *)
Theorem upsert_idempotent (db : Database) (url : string) (book book' : Book) :
  let db1 := (upsert_book true db url book).2 in
  (upsert_book true db1 url book).2 = db1
  ∧ (upsert_book true (upsert_book true db url book').2 url book).2 = db1
  ∧ StorageOps.get_total_books_count true db1
    = StorageOps.get_total_books_count true db
      + (if bool_decide (url ∈ dom (books db)) then 0 else 1).
Proof.
  simpl. repeat split.
  - by rewrite insert_insert_eq.
  - by rewrite insert_insert_eq.
  - case_bool_decide as Hin.
    + apply elem_of_dom in Hin as [old Hold].
      rewrite <- (insert_delete_id (books db) url old Hold) at 2.
      rewrite <- insert_delete_eq.
      rewrite !map_size_insert_None by apply lookup_delete_eq. lia.
    + apply not_elem_of_dom in Hin.
      rewrite map_size_insert_None by done. lia.
Qed.

(** ** Change reports *)

Lemma newer_trans : Transitive Reports.newer.
Proof. unfold Reports.newer. intros a b c ? ?. lia. Qed.

Lemma newer_total : Total Reports.newer.
Proof. unfold Reports.newer. intros a b. lia. Qed.

(** X7.  A report holds exactly the entries of the change log whose date
    lies within the bounds given (all of them when no bound is given),
    newest first, and the JSON report is always written to the path
    returned. *)
Theorem change_report_contents (stamp : string)
    (dump csv : list ChangeLog → string) (start_date end_date : option Z)
    (db : Database) (files : Reports.Files) :
  let changes := Reports.find_changes start_date end_date db in
  changes ≡ₚ filter (Reports.matches start_date end_date) (change_log db)
  ∧ (∀ change, change ∈ changes
               ↔ change ∈ change_log db
                 ∧ Reports.matches start_date end_date change)
  ∧ StronglySorted Reports.newer changes
  ∧ Reports.find_changes None None db ≡ₚ change_log db
  ∧ ∃ path,
      Reports.generate_change_report stamp dump csv start_date end_date
        "json" db files
      = (path, <[path := dump changes]> files).
Proof.
  simpl. unfold Reports.find_changes.
  split; [apply merge_sort_Permutation |].
  split.
  - intros change. rewrite merge_sort_Permutation, list_elem_of_filter. tauto.
  - split.
    { apply (@StronglySorted_merge_sort _ Reports.newer _
               newer_trans newer_total). }
    split.
    + rewrite merge_sort_Permutation.
      induction (change_log db) as [| c l IH]; [done |].
      rewrite filter_cons_True by done. by rewrite IH.
    + eexists. unfold Reports.generate_change_report.
      rewrite bool_decide_eq_true_2 by done. reflexivity.
Qed.

(** X8.  A CSV report with no matching entry writes no file: the files
    are as before, so the path returned names a file that was not
    created. *)
Theorem empty_csv_report_writes_nothing (stamp format : string)
    (dump csv : list ChangeLog → string) (start_date end_date : option Z)
    (db : Database) (files : Reports.Files) :
  format ≠ "json" →
  Forall (λ change, ¬ Reports.matches start_date end_date change)
         (change_log db) →
  let '(path, files') :=
    Reports.generate_change_report stamp dump csv start_date end_date format
      db files in
  path = "reports/change_report_" +:+ stamp +:+ ".csv"
  ∧ files' = files
  ∧ (files !! path = None → files' !! path = None).
Proof.
  intros Hfmt Hnone. unfold Reports.generate_change_report.
  rewrite bool_decide_eq_false_2 by done.
  assert (Reports.find_changes start_date end_date db = []) as ->.
  { unfold Reports.find_changes.
    apply Permutation_nil_r. rewrite merge_sort_Permutation.
    induction Hnone as [| c l Hc _ IH]; [done |].
    by rewrite filter_cons_False. }
  by rewrite bool_decide_eq_false_2 by by intros ?.
Qed.

Lemma empty_csv_report_writes_nothing_witness :
  Reports.generate_change_report "20240101_000000" (λ _, "[]") (λ _, "")
    None None "csv" Samples.empty_db ∅
  = ("reports/change_report_20240101_000000.csv", ∅).
Proof.
  pose proof (empty_csv_report_writes_nothing "20240101_000000" "csv"
                (λ _, "[]") (λ _, "") None None Samples.empty_db ∅) as H.
  destruct (Reports.generate_change_report _ _ _ _ _ _ _ _) as [path files'].
  destruct H as (-> & -> & _).
  - discriminate.
  - constructor.
  - reflexivity.
Defined.

(** ** The scheduled jobs *)

(** X9.  The change-detection job generates no report and sends no
    alert, and leaves the database and the report files as they were,
    whatever the database holds and however alerts are configured. *)
Theorem change_detection_job_does_nothing (now : Z) (stamp : string)
    (dump csv : list ChangeLog → string) (enable_email_alerts : bool)
    (alert_email : string) (db : Database) (files : Reports.Files) :
  Jobs.change_detection_job now stamp dump csv enable_email_alerts
    alert_email db files
  = (db, files, []).
Proof.
  unfold Jobs.change_detection_job, ChangeDetector.run_change_detection.
  simpl. reflexivity.
Qed.

(** X10.  A change that was logged is in every later report whose bounds
    include its date, which then has one entry more; a failed insert and
    a date outside the bounds leave the report as it was.  Logging never
    touches the books or the progress document. *)
Theorem logged_change_is_reported (start_date end_date : option Z)
    (db : Database) (change : ChangeLog) :
  Reports.matches start_date end_date change →
  let db' := Reports.log_change true db change in
  change ∈ Reports.find_changes start_date end_date db'
  ∧ Reports.find_changes start_date end_date db'
    ≡ₚ change :: Reports.find_changes start_date end_date db
  ∧ books db' = books db
  ∧ crawl_progress db' = crawl_progress db
  ∧ Reports.log_change false db change = db.
Proof.
  intros Hm. simpl. unfold Reports.find_changes. simpl.
  assert (merge_sort Reports.newer
            (filter (Reports.matches start_date end_date)
                    (change_log db ++ [change]))
          ≡ₚ change :: merge_sort Reports.newer
               (filter (Reports.matches start_date end_date) (change_log db)))
    as Hp.
  { rewrite !merge_sort_Permutation, filter_app, filter_cons_True by done.
    rewrite filter_nil. by rewrite Permutation_app_comm. }
  repeat split; [| done]. rewrite Hp. left.
Qed.

Lemma logged_change_is_reported_witness :
  mkChangeLog "123" "Test Book" PRICE_CHANGE None [] 5
  ∈ Reports.find_changes (Some 1%Z) None
      (Reports.log_change true Samples.empty_db
         (mkChangeLog "123" "Test Book" PRICE_CHANGE None [] 5)).
Proof.
  apply (logged_change_is_reported (Some 1%Z) None Samples.empty_db
           (mkChangeLog "123" "Test Book" PRICE_CHANGE None [] 5)).
  vm_compute. split; [discriminate | exact I].
Defined.

(** ** More on [detect_changes] *)



(** X12.  [detect_changes] raises (the [ChangeLog] constructor rejects the
    name) exactly when the new record's name is present and not a string
    and at least one compared field differs; a record without a name is
    reported under the name Unknown. *)
Theorem detect_changes_raises_iff (now : Z) (old new : pydict) :
  (ChangeDetector.detect_changes now old new = None
   ↔ (∀ name, dict_get_default "name" (PyStr "Unknown") new ≠ PyStr name)
     ∧ (py_ne (dict_get "price_incl_tax" old) (dict_get "price_incl_tax" new)
        = true
        ∨ py_ne (dict_get "availability" old) (dict_get "availability" new)
          = true
        ∨ py_ne (dict_get "description" old) (dict_get "description" new)
          = true))
  ∧ ("name" ∉ new.*1 →
     dict_get_default "name" (PyStr "Unknown") new = PyStr "Unknown").
Proof.
  split.
  - unfold ChangeDetector.detect_changes.
    destruct (dict_get_default "name" (PyStr "Unknown") new) as [| name |];
      destruct (py_ne (dict_get "price_incl_tax" old)
                      (dict_get "price_incl_tax" new));
      destruct (py_ne (dict_get "availability" old)
                      (dict_get "availability" new));
      destruct (py_ne (dict_get "description" old)
                      (dict_get "description" new));
      simpl; (split; [intros Hnone | intros [Hname Hdiff]]);
      try discriminate; try done;
      try (split; [by intros ? | tauto]);
      try (by destruct Hdiff as [? | [? | ?]]);
      try (by destruct (Hname name)).
  - induction new as [| [k v] new IH]; simpl; [done |].
    intros Hnotin. apply not_elem_of_cons in Hnotin as [Hne Hnotin].
    rewrite bool_decide_eq_false_2 by done. by apply IH.
Qed.

(** X13.  [detect_new_books] returns, once each, exactly the current
    addresses that are not stored; it returns nothing exactly when every
    current address is stored. *)
Theorem detect_new_books_spec (current_urls stored_urls : gset string) :
  let new_urls := ChangeDetector.detect_new_books current_urls stored_urls in
  (∀ url, url ∈ new_urls ↔ url ∈ current_urls ∧ url ∉ stored_urls)
  ∧ NoDup new_urls
  ∧ (new_urls = [] ↔ current_urls ⊆ stored_urls)
  ∧ length new_urls + size (current_urls ∩ stored_urls) = size current_urls.
Proof.
  simpl. unfold ChangeDetector.detect_new_books.
  split; [| split; [| split; [split |]]].
  - intros url. by rewrite elem_of_elements, elem_of_difference.
  - apply NoDup_elements.
  - intros Hnil%elements_empty_inv url Hurl.
    destruct (decide (url ∈ stored_urls)) as [| Hout]; [done |].
    exfalso. apply (not_elem_of_empty (C := gset string) url).
    apply Hnil. by apply elem_of_difference.
  - intros Hsub. apply elements_empty_iff.
    intros url. split; [| by intros ?%not_elem_of_empty].
    intros [Hin Hout]%elem_of_difference. exfalso. by apply Hout, Hsub.
  - change (length (elements ?X)) with (size X).
    rewrite <- size_union.
    + f_equal. apply leibniz_equiv. intros url.
      rewrite elem_of_union, elem_of_difference, elem_of_intersection.
      destruct (decide (url ∈ stored_urls)); tauto.
    + intros url [_ Hout]%elem_of_difference [_ Hin]%elem_of_intersection.
      done.
Qed.

(** ** More on [fetch_with_retry] *)

(** The outcome of the attempts from [retries] on. *)
Lemma fetch_with_retry_outcome_from (self : BookScraper) (client : Client)
    (url : string) (retries : nat) :
  retries ≤ max_retries self →
  let out := (fetch_with_retry self client url retries).1 in
  (out = Returns None
   ↔ ∀ r, retries ≤ r ≤ max_retries self → ∃ e, client url r = HttpError e)
  ∧ (∀ text,
       out = Returns (Some text)
       ↔ ∃ k, retries ≤ k ≤ max_retries self
              ∧ client url k = HttpOk text
              ∧ ∀ r, retries ≤ r < k → ∃ e, client url r = HttpError e)
  ∧ (out = Raises
     ↔ ∃ k, retries ≤ k ≤ max_retries self
            ∧ client url k = HttpRaises
            ∧ ∀ r, retries ≤ r < k → ∃ e, client url r = HttpError e).
Proof.
  remember (max_retries self - retries) as n eqn:Hn.
  revert retries Hn. induction n as [| n IH]; intros retries Hn Hle;
    cbn zeta; rewrite fetch_with_retry_eqn;
    destruct (client url retries) as [text | e |] eqn:E; simpl.
  all: try destruct (decide (retries < max_retries self)) as [Hlt | Hge];
    try lia; simpl.
  all: try (destruct (IH (retries + 1)) as (IHn & IHs & IHr); [lia | lia |];
            cbn zeta in IHn, IHs, IHr).
  all: split; [| split; [intros text' |]].
  all: try rewrite IHn; try rewrite IHs; try rewrite IHr.
  all: split.
  all: try (intros Hall; destruct (Hall retries) as [e' He']; [lia |];
            congruence).
  all: try (intros [= <-]; exists retries;
            split; [lia |]; split; [done |]; intros r Hr; lia).
  all: try (intros _; exists retries;
            split; [lia |]; split; [done |]; intros r Hr; lia).
  all: try (intros (k & Hk & Hok & Hbefore);
            destruct (decide (k = retries)) as [-> | Hne];
            [congruence |];
            destruct (Hbefore retries) as [e' He']; [lia |]; congruence).
  all: try done.
  all: try (intros Hall r Hr;
            destruct (decide (r = retries)) as [-> | Hne];
            [by exists e | apply Hall; lia]).
  all: try (intros Hall r Hr; apply Hall; lia).
  all: try (intros (k & Hk & Hok & Hbefore); exists k;
            split; [lia |]; split; [done |]; intros r Hr;
            destruct (decide (r = retries)) as [-> | Hne];
            [by exists e | apply Hbefore; lia]).
  all: try (intros (k & Hk & Hok & Hbefore);
            destruct (decide (k = retries)) as [-> | Hne];
            [congruence |];
            exists k; split; [lia |]; split; [done |];
            intros r Hr; apply Hbefore; lia).
  all: try (intros _ r Hr; assert (r = retries) as -> by lia; by exists e).
  all: try (intros (k & Hk & Hok & Hbefore);
            assert (k = retries) as -> by lia; congruence).
Qed.

(** X14.  What a fetch returns is decided by the first attempt that does
    not fail with a retryable error: it returns the text of the first
    successful attempt when the attempts before it failed and it is one of
    the first [max_retries + 1]; it lets the exception through when that
    attempt raised one of another class; and it returns [None] exactly
    when all of the first [max_retries + 1] attempts fail with a retryable
    error. *)
Theorem fetch_with_retry_outcome (self : BookScraper) (client : Client)
    (url : string) :
  let out := (fetch_with_retry self client url 0).1 in
  (out = Returns None
   ↔ ∀ r, r ≤ max_retries self → ∃ e, client url r = HttpError e)
  ∧ (∀ text,
       out = Returns (Some text)
       ↔ ∃ k, k ≤ max_retries self
              ∧ client url k = HttpOk text
              ∧ ∀ r, r < k → ∃ e, client url r = HttpError e)
  ∧ (out = Raises
     ↔ ∃ k, k ≤ max_retries self
            ∧ client url k = HttpRaises
            ∧ ∀ r, r < k → ∃ e, client url r = HttpError e).
Proof.
  destruct (fetch_with_retry_outcome_from self client url 0) as (Hn & Hs & Hr);
    [lia |].
  cbn zeta in *. split; [| split; [intros text |]].
  - rewrite Hn. split; intros Hall r Hle; apply Hall; lia.
  - rewrite Hs. split; intros (k & Hk & Hok & Hbefore); exists k;
      (split; [lia |]); (split; [done |]); intros r Hlt; apply Hbefore; lia.
  - rewrite Hr. split; intros (k & Hk & Hok & Hbefore); exists k;
      (split; [lia |]); (split; [done |]); intros r Hlt; apply Hbefore; lia.
Qed.

(** A server that fails twice and then answers. *)
Example fetch_succeeds_on_third_attempt :
  fetch_with_retry (BookScraper_init Config.settings)
    (λ _ r, if bool_decide (r < 2) then HttpError "ReadTimeout"
            else HttpOk "<html>")
    "u" 0
  = (Returns (Some "<html>"),
     [Acquire; HttpGet "u"; Release; LogWarning "u" 1 1 3 "ReadTimeout";
      Sleep 1;
      Acquire; HttpGet "u"; Release; LogWarning "u" 2 2 3 "ReadTimeout";
      Sleep 2;
      Acquire; HttpGet "u"; Release]).
Proof. vm_compute. reflexivity. Qed.



(** ** More on the crawl *)

(** X16.  [scrape_book] has two outcomes and nothing in between.  When it
    returns a book, that book is stored under the address scraped, carries
    the fingerprint of its own fields, the status success and the address
    as its source, the completed count has grown by one and the failed set
    is as before.  When it returns nothing, the database is untouched, the
    completed count is as before and the address has joined the failed set.
    In both cases the book was returned exactly when the task succeeds, and
    only the book at that address can have changed. *)
Theorem scrape_book_outcome (w : World) (i : nat) (self : BookScraper)
    (db : Database) (url : string) :
  let '(self', db', book) := scrape_book w i self db url in
  match book with
  | Some b =>
      task_succeeds w self (i, url) = true
      ∧ books db' = <[url := b]> (books db)
      ∧ content_hash b = Storage.generate_content_hash (book_fields b)
      ∧ crawl_metadata b = mkCrawlMetadata (item_clock w i) SUCCESS url None
      ∧ html_snapshot_id b = store_html_snapshot w i
      ∧ completed_books self' = completed_books self + 1
      ∧ failed_urls self' = failed_urls self
  | None =>
      task_succeeds w self (i, url) = false
      ∧ db' = db
      ∧ completed_books self' = completed_books self
      ∧ failed_urls self' = {[url]} ∪ failed_urls self
  end
  ∧ change_log db' = change_log db
  ∧ crawl_progress db' = crawl_progress db
  ∧ total_books self' = total_books self
  ∧ max_retries self' = max_retries self
  ∧ base_url self' = base_url self.
Proof.
  unfold scrape_book, task_succeeds, upsert_book. simpl.
  destruct (fetch_with_retry self (item_client w i) url 0).1 as [html |];
    [| done].
  destruct (not_html html); simpl; [done |].
  destruct (parse_book_details _ _ _ _) as [book_data |]; [| done].
  destruct (Book_validates w book_data); simpl; [| done].
  by destruct (upsert_ok w i).
Qed.

(** *** Invariants of the batch loop *)

(** What one task does to the loop state. *)
Lemma gather_ind (w : World) (P : LoopState → Prop)
    (batch : list (nat * string)) (st : LoopState) :
  P st →
  (∀ st i url,
     (i, url) ∈ batch → P st →
     P (mkLoopState (scrape_book w i (ls_self st) (ls_db st) url).1.1
                    (scrape_book w i (ls_self st) (ls_db st) url).1.2
                    (ls_persisted st) (ls_saves st)
                    (ls_scraped st ++ [url]))) →
  P (gather w st batch).
Proof.
  unfold gather. revert st.
  induction batch as [| [i url] batch IH]; intros st Hst Hstep; simpl;
    [done |].
  apply IH.
  - specialize (Hstep st i url). 
    destruct (scrape_book w i (ls_self st) (ls_db st) url) as [[self' db'] b].
    apply Hstep; [left | done].
  - intros st' j url' Hin. apply Hstep. by right.
Qed.

(** A property of the loop state that holds at the start of the run after
    discovery, and is kept by every task and by every progress write,
    holds at its end. *)
Lemma crawl_discovered_ind (w : World) (self : BookScraper) (db : Database)
    (resume : bool) (D : list string) (P : LoopState → Prop) :
  let urls :=
    if resume then filter (λ url, url ∉ dom (books db)) D else D in
  P (mkLoopState (total_books_set self (length D)) db [] 0 []) →
  (∀ st i url,
     url ∈ urls → P st →
     P (mkLoopState (scrape_book w i (ls_self st) (ls_db st) url).1.1
                    (scrape_book w i (ls_self st) (ls_db st) url).1.2
                    (ls_persisted st) (ls_saves st)
                    (ls_scraped st ++ [url]))) →
  (∀ st,
     P st →
     P (save_crawl_progress w st
          (make_progress (clock w (ls_saves st)) (ls_self st)))) →
  P (run_state (crawl_discovered w self db resume D)).
Proof.
  intros urls Hinit Htask Hsave. unfold crawl_discovered. simpl.
  fold urls. set (tasks := imap _ urls).
  apply Hsave.
  assert (∀ i url, (i, url) ∈ tasks → url ∈ urls) as Hin.
  { intros i url Hin. rewrite <- (imap_pair_snd urls 0).
    apply list_elem_of_fmap. by exists (i, url). }
  generalize (py_range 0 (length tasks) batch_size). intros starts.
  induction starts as [| k starts IH] using rev_ind; simpl; [done |].
  rewrite foldl_app. simpl. apply Hsave. apply gather_ind; [done |].
  intros st i url Hiu. apply Htask. apply (Hin i).
  unfold py_slice in Hiu.
  by apply subseteq_take, subseteq_drop in Hiu.
Qed.

(** The two outcomes of [scrape_book], as equations. *)
Lemma scrape_book_cases (w : World) (i : nat) (self : BookScraper)
    (db : Database) (url : string) :
  (∃ b,
     scrape_book w i self db url
     = (completed_books_incr self,
        mkDatabase (<[url := b]> (books db)) (change_log db)
                   (crawl_progress db),
        Some b)
     ∧ content_hash b = Storage.generate_content_hash (book_fields b)
     ∧ crawl_metadata b = mkCrawlMetadata (item_clock w i) SUCCESS url None)
  ∨ scrape_book w i self db url = (failed_urls_add self url, db, None).
Proof.
  unfold scrape_book, upsert_book.
  destruct (fetch_with_retry self (item_client w i) url 0).1 as [html |];
    [| by right].
  destruct (not_html html); simpl; [by right |].
  destruct (parse_book_details _ _ _ _) as [book_data |]; [| by right].
  destruct (Book_validates w book_data); simpl; [| by right].
  destruct (upsert_ok w i); [| by right].
  left. eexists. by repeat split.
Qed.

(** A progress write changes nothing but the progress document and the
    record of the writes. *)
Lemma save_crawl_progress_frame (w : World) (st : LoopState)
    (p : CrawlProgress) :
  ls_self (save_crawl_progress w st p) = ls_self st
  ∧ books (ls_db (save_crawl_progress w st p)) = books (ls_db st)
  ∧ change_log (ls_db (save_crawl_progress w st p)) = change_log (ls_db st)
  ∧ ls_scraped (save_crawl_progress w st p) = ls_scraped st
  ∧ ls_saves (save_crawl_progress w st p) = S (ls_saves st).
Proof. unfold save_crawl_progress. by destruct (save_ok w (ls_saves st)). Qed.

(** The run after discovery ends with a progress write of the snapshot it
    returns. *)
Lemma crawl_discovered_final (w : World) (self : BookScraper) (db : Database)
    (resume : bool) (D : list string) :
  ∃ st p,
    run_state (crawl_discovered w self db resume D)
    = save_crawl_progress w st p
    ∧ returned (crawl_discovered w self db resume D) = Returns p
    ∧ p = make_progress (clock w (ls_saves st)) (ls_self st).
Proof. eexists _, _. unfold crawl_discovered. simpl. by repeat split. Qed.

(** A run that raises leaves everything as it found it. *)
Lemma run_crawler_cases_db (s : Config.Settings) (w : World) (fuel : nat)
    (db : Database) (resume : bool) (run : CrawlRun) :
  run_crawler s w fuel db resume = Some run →
  (returned run = Raises
   ∧ run_state run = mkLoopState (BookScraper_init s) db [] 0 [])
  ∨ ∃ D,
      connect_ok w = true
      ∧ get_all_book_urls w (BookScraper_init s) fuel = Some (Returns D)
      ∧ run = crawl_discovered w (BookScraper_init s) db resume D.
Proof.
  unfold run_crawler, crawl_all_books.
  destruct (connect_ok w); [| intros [= <-]; by left].
  destruct (get_all_book_urls _ _ _) as [[D |] |]; [| | done].
  - intros [= <-]. right. by exists D.
  - intros [= <-]. by left.
Qed.

(** The books of the store during the run after discovery: nothing is
    deleted, the change log is not touched, and only addresses handed to
    [scrape_book] can have changed. *)
Lemma crawl_discovered_frame (w : World) (self : BookScraper) (db : Database)
    (resume : bool) (D : list string) :
  let urls :=
    if resume then filter (λ url, url ∉ dom (books db)) D else D in
  let st := run_state (crawl_discovered w self db resume D) in
  dom (books db) ⊆ dom (books (ls_db st))
  ∧ change_log (ls_db st) = change_log db
  ∧ (∀ url, url ∉ urls → books (ls_db st) !! url = books db !! url).
Proof.
  intros urls.
  apply (crawl_discovered_ind w self db resume D
           (λ st, dom (books db) ⊆ dom (books (ls_db st))
                  ∧ change_log (ls_db st) = change_log db
                  ∧ (∀ url, url ∉ urls →
                            books (ls_db st) !! url = books db !! url))).
  - done.
  - intros st i url Hin (Hdom & Hlog & Hframe). fold urls in Hin.
    destruct (scrape_book_cases w i (ls_self st) (ls_db st) url)
      as [(b & -> & _) | ->]; simpl; [| done].
    rewrite dom_insert_L. repeat split; [set_solver | done |].
    intros url' Hout. rewrite lookup_insert_ne; [by apply Hframe |].
    by intros ->.
  - intros st (Hdom & Hlog & Hframe).
    destruct (save_crawl_progress_frame w st
                (make_progress (clock w (ls_saves st)) (ls_self st)))
      as (_ & -> & -> & _). done.
Qed.

(** X17.  A crawl deletes no book and does not touch the change log; the
    only books it can change are those at the addresses it handed to
    [scrape_book]. *)
Theorem crawl_keeps_other_books (s : Config.Settings) (w : World)
    (fuel : nat) (db : Database) (resume : bool) (run : CrawlRun) :
  run_crawler s w fuel db resume = Some run →
  let db' := ls_db (run_state run) in
  dom (books db) ⊆ dom (books db')
  ∧ change_log db' = change_log db
  ∧ (∀ url, url ∉ ls_scraped (run_state run) →
            books db' !! url = books db !! url).
Proof.
  intros [[_ ->] | (D & _ & _ & ->)]%run_crawler_cases_db; [done |].
  destruct (crawl_discovered_frame w (BookScraper_init s) db resume D)
    as (Hdom & Hlog & Hframe).
  destruct (crawl_discovered_spec w (BookScraper_init s) db resume D)
    as (_ & _ & _ & Hscr).
  cbn zeta in *. by rewrite Hscr.
Qed.

Lemma crawl_keeps_other_books_witness :
  ∃ run,
    run_crawler Config.settings Samples.site_up 5 Samples.first_book_stored
      true = Some run
    ∧ change_log (ls_db (run_state run)) = [].
Proof.
  assert (is_Some (run_crawler Config.settings Samples.site_up 5
                     Samples.first_book_stored true))
    as [run Hrun] by (vm_compute; eauto).
  exists run. split; [exact Hrun |].
  by destruct (crawl_keeps_other_books Config.settings Samples.site_up 5
                 Samples.first_book_stored true run Hrun) as (_ & -> & _).
Defined.

(** X18.  The daily crawl job never refreshes a book: every book stored
    before the job is stored unchanged after it, whatever the site serves
    for its address. *)
Theorem daily_crawl_job_keeps_stored_books (s : Config.Settings) (w : World)
    (fuel : nat) (db db' : Database) (url : string) (b : Book) :
  Jobs.daily_crawl_job s w fuel db = Some db' →
  books db !! url = Some b →
  books db' !! url = Some b.
Proof.
  unfold Jobs.daily_crawl_job.
  destruct (run_crawler s w fuel db true) as [run |] eqn:Hrun; simpl;
    [| done].
  intros [= <-] Hb.
  apply run_crawler_cases_db in Hrun as [[_ ->] | (D & _ & _ & ->)];
    [done |].
  destruct (crawl_discovered_frame w (BookScraper_init s) db true D)
    as (_ & _ & Hframe).
  cbn zeta in Hframe. rewrite Hframe; [done |].
  intros [Hout _]%list_elem_of_filter. apply Hout.
  apply elem_of_dom. by exists b.
Qed.

Lemma daily_crawl_job_keeps_stored_books_witness :
  ∃ db',
    Jobs.daily_crawl_job Config.settings Samples.site_up 5
      Samples.first_book_stored = Some db'
    ∧ content_hash
      <$> books db' !! "https://books.toscrape.com/catalogue/a/index.html"
      = Some "".
Proof.
  assert (is_Some (Jobs.daily_crawl_job Config.settings Samples.site_up 5
                     Samples.first_book_stored))
    as [db' Hjob] by (vm_compute; eauto).
  exists db'. split; [exact Hjob |].
  rewrite (daily_crawl_job_keeps_stored_books Config.settings Samples.site_up
             5 Samples.first_book_stored db'
             "https://books.toscrape.com/catalogue/a/index.html"
             (mkBook (Samples.sample_fields "<h1>A Book</h1>"
                        "https://books.toscrape.com/catalogue/a/index.html")
                     (String.EmptyString)
                     (mkCrawlMetadata 0 SUCCESS
                        "https://books.toscrape.com/catalogue/a/index.html"
                        None)
                     None)
             Hjob); reflexivity.
Defined.

Lemma crawl_discovered_accounted (w : World) (self : BookScraper)
    (db : Database) (resume : bool) (D : list string) :
  failed_urls self = ∅ →
  let st := run_state (crawl_discovered w self db resume D) in
  (∀ url, url ∈ ls_scraped st →
          url ∈ failed_urls (ls_self st) ∨ url ∈ dom (books (ls_db st)))
  ∧ (∀ url, url ∈ failed_urls (ls_self st) → url ∈ ls_scraped st)
  ∧ completed_books self ≤ completed_books (ls_self st)
  ∧ size (books (ls_db st)) + completed_books self
    ≤ size (books db) + completed_books (ls_self st).
Proof.
  intros Hnone.
  apply (crawl_discovered_ind w self db resume D
           (λ st,
              (∀ url, url ∈ ls_scraped st →
                      url ∈ failed_urls (ls_self st)
                      ∨ url ∈ dom (books (ls_db st)))
              ∧ (∀ url, url ∈ failed_urls (ls_self st) → url ∈ ls_scraped st)
              ∧ completed_books self ≤ completed_books (ls_self st)
              ∧ size (books (ls_db st)) + completed_books self
                ≤ size (books db) + completed_books (ls_self st))).
  - simpl. repeat split; [by intros url ?%elem_of_nil | | lia | lia].
    rewrite Hnone. by intros url ?%not_elem_of_empty.
  - intros st i url _ (Hacc & Hfail & Hmono & Hsize).
    destruct (scrape_book_cases w i (ls_self st) (ls_db st) url)
      as [(b & -> & _) | ->]; simpl.
    + repeat split.
      * intros url' [Hin | ->%list_elem_of_singleton]%elem_of_app.
        -- destruct (Hacc url' Hin) as [? | ?]; [by left | right].
           rewrite dom_insert_L. set_solver.
        -- right. rewrite dom_insert_L. set_solver.
      * intros url' Hin. apply elem_of_app. left. by apply Hfail.
      * lia.
      * destruct (books (ls_db st) !! url) as [old |] eqn:Hold.
        -- rewrite <- (insert_delete_id (books (ls_db st)) url old Hold)
             in Hsize |- *.
           rewrite insert_insert_eq.
           rewrite !map_size_insert_None in * by apply lookup_delete_eq. lia.
        -- rewrite map_size_insert_None by done. lia.
    + repeat split; [| | done | done].
      * intros url' [Hin | ->%list_elem_of_singleton]%elem_of_app.
        -- destruct (Hacc url' Hin) as [? | ?]; [left | by right].
           set_solver.
        -- left. set_solver.
      * intros url' [->%elem_of_singleton | Hin]%elem_of_union.
        -- apply elem_of_app. right. left.
        -- apply elem_of_app. left. by apply Hfail.
  - intros st (Hacc & Hfail & Hmono & Hsize).
    destruct (save_crawl_progress_frame w st
                (make_progress (clock w (ls_saves st)) (ls_self st)))
      as (-> & -> & _ & -> & _). done.
Qed.

(** X19.  Every address a crawl hands to [scrape_book] ends up in the
    failed set or in the store, and the failed set holds nothing else; the
    store grows by at most the number of books completed. *)
Theorem scraped_addresses_accounted (s : Config.Settings) (w : World)
    (fuel : nat) (db : Database) (resume : bool) (run : CrawlRun) :
  run_crawler s w fuel db resume = Some run →
  let st := run_state run in
  (∀ url, url ∈ ls_scraped st →
          url ∈ failed_urls (ls_self st) ∨ url ∈ dom (books (ls_db st)))
  ∧ (∀ url, url ∈ failed_urls (ls_self st) → url ∈ ls_scraped st)
  ∧ size (books (ls_db st)) ≤ size (books db) + completed_books (ls_self st).
Proof.
  intros [[_ ->] | (D & _ & _ & ->)]%run_crawler_cases_db; simpl.
  { repeat split; [by intros url ?%elem_of_nil | | lia].
    by intros url ?%not_elem_of_empty. }
  destruct (crawl_discovered_accounted w (BookScraper_init s) db resume D)
    as (Hacc & Hfail & _ & Hsize); [done |].
  cbn zeta in *. simpl in Hsize. repeat split; try done. lia.
Qed.

Lemma scraped_addresses_accounted_witness :
  ∃ run,
    run_crawler Config.settings Samples.site_up 5 Samples.empty_db false
    = Some run
    ∧ size (books (ls_db (run_state run)))
      ≤ completed_books (ls_self (run_state run)).
Proof.
  assert (is_Some (run_crawler Config.settings Samples.site_up 5
                     Samples.empty_db false))
    as [run Hrun] by (vm_compute; eauto).
  exists run. split; [exact Hrun |].
  by destruct (scraped_addresses_accounted Config.settings Samples.site_up 5
                 Samples.empty_db false run Hrun) as (_ & _ & ?).
Defined.

(** X20.  If every stored book carries the fingerprint of its own fields,
    the status success and, as its source, the address it is stored
    under, the same is true after a crawl. *)
Theorem crawl_keeps_books_consistent (s : Config.Settings) (w : World)
    (fuel : nat) (db : Database) (resume : bool) (run : CrawlRun) :
  map_Forall (λ url b,
                content_hash b
                = Storage.generate_content_hash (book_fields b)
                ∧ source_url (crawl_metadata b) = url
                ∧ cm_status (crawl_metadata b) = SUCCESS)
             (books db) →
  run_crawler s w fuel db resume = Some run →
  map_Forall (λ url b,
                content_hash b
                = Storage.generate_content_hash (book_fields b)
                ∧ source_url (crawl_metadata b) = url
                ∧ cm_status (crawl_metadata b) = SUCCESS)
             (books (ls_db (run_state run))).
Proof.
  intros Hdb [[_ ->] | (D & _ & _ & ->)]%run_crawler_cases_db; [done |].
  apply (crawl_discovered_ind w (BookScraper_init s) db resume D
           (λ st,
              map_Forall (λ url b,
                            content_hash b
                            = Storage.generate_content_hash (book_fields b)
                            ∧ source_url (crawl_metadata b) = url
                            ∧ cm_status (crawl_metadata b) = SUCCESS)
                         (books (ls_db st)))).
  - done.
  - intros st i url _ Hst.
    destruct (scrape_book_cases w i (ls_self st) (ls_db st) url)
      as [(b & -> & Hhash & Hmeta) | ->]; simpl; [| done].
    apply map_Forall_insert_2; [| done]. by rewrite Hmeta.
  - intros st Hst.
    by destruct (save_crawl_progress_frame w st
                   (make_progress (clock w (ls_saves st)) (ls_self st)))
      as (_ & -> & _).
Qed.

Lemma crawl_keeps_books_consistent_witness :
  ∃ run,
    run_crawler Config.settings Samples.site_up 5 Samples.empty_db false
    = Some run
    ∧ map_Forall (λ url b,
                    content_hash b
                    = Storage.generate_content_hash (book_fields b)
                    ∧ source_url (crawl_metadata b) = url
                    ∧ cm_status (crawl_metadata b) = SUCCESS)
                 (books (ls_db (run_state run))).
Proof.
  assert (is_Some (run_crawler Config.settings Samples.site_up 5
                     Samples.empty_db false))
    as [run Hrun] by (vm_compute; eauto).
  exists run. split; [exact Hrun |].
  apply (crawl_keeps_books_consistent Config.settings Samples.site_up 5
           Samples.empty_db false run); [| exact Hrun].
  apply map_Forall_empty.
Defined.

(** The progress document during the run after discovery is the last
    snapshot written, or the one found when none has been written. *)
Lemma crawl_discovered_progress (w : World) (self : BookScraper)
    (db : Database) (resume : bool) (D : list string) :
  let st := run_state (crawl_discovered w self db resume D) in
  crawl_progress (ls_db st)
  = from_option Some (crawl_progress db) (last (ls_persisted st)).
Proof.
  apply (crawl_discovered_ind w self db resume D
           (λ st, crawl_progress (ls_db st)
                  = from_option Some (crawl_progress db)
                                (last (ls_persisted st)))).
  - done.
  - intros st i url _ Hst.
    by destruct (scrape_book_cases w i (ls_self st) (ls_db st) url)
      as [(b & -> & _) | ->].
  - intros st Hst. unfold save_crawl_progress.
    destruct (save_ok w (ls_saves st)); simpl; [| done].
    by rewrite last_snoc.
Qed.

(** The number of progress writes of the run after discovery: one for
    each batch and one at the end. *)
Lemma crawl_discovered_saves (w : World) (self : BookScraper) (db : Database)
    (resume : bool) (D : list string) :
  let st := run_state (crawl_discovered w self db resume D) in
  ls_saves st = (length (ls_scraped st) + batch_size - 1) / batch_size + 1.
Proof.
  destruct (crawl_discovered_spec w self db resume D) as (_ & _ & _ & Hscr).
  cbn zeta in *. rewrite Hscr. clear Hscr.
  unfold crawl_discovered, py_range.
  set (urls := if resume then _ else D).
  set (tasks := imap _ urls).
  set (m := (length tasks - 0 + batch_size - 1) / batch_size).
  destruct (batch_loop_spec w tasks (total_books_set self (length D)) db m)
    as (_ & Hsaves & _).
  cbn zeta in *. set (st := foldl _ _ _) in *.
  destruct (save_crawl_progress_frame w st
              (make_progress (clock w (ls_saves st)) (ls_self st)))
    as (_ & _ & _ & _ & Hs).
  simpl. rewrite Hs, Hsaves. unfold m, tasks.
  rewrite length_imap, Nat.sub_0_r. lia.
Qed.

(** X21.  A run that returns writes the progress once for every batch of
    fifty addresses and once at the end.  After a run the progress
    document that [get_crawl_progress] reads is the last snapshot the run
    persisted, and the document found before the run when it persisted
    none; when the last write succeeded it is the snapshot the run
    returned. *)
Theorem crawl_progress_round_trip (s : Config.Settings) (w : World)
    (fuel : nat) (db : Database) (resume : bool) (run : CrawlRun) :
  run_crawler s w fuel db resume = Some run →
  let st := run_state run in
  StorageOps.get_crawl_progress true (ls_db st)
  = from_option Some (StorageOps.get_crawl_progress true db)
                (last (ls_persisted st))
  ∧ ∀ p, returned run = Returns p →
         ls_saves st
         = (length (ls_scraped st) + batch_size - 1) / batch_size + 1
         ∧ (save_ok w (ls_saves st - 1) = true →
            StorageOps.get_crawl_progress true (ls_db st) = Some p).
Proof.
  intros [[Hr ->] | (D & _ & _ & ->)]%run_crawler_cases_db; cbn zeta.
  { simpl. rewrite Hr. split; [done |]. by intros p. }
  unfold StorageOps.get_crawl_progress.
  split; [apply crawl_discovered_progress |].
  intros p' Hp'. split; [apply crawl_discovered_saves |].
  revert Hp'.
  destruct (crawl_discovered_final w (BookScraper_init s) db resume D)
    as (st & p & -> & -> & Hp).
  intros [= <-]. unfold save_crawl_progress.
  destruct (save_ok w (ls_saves st)) eqn:Hok; simpl; [done |].
  rewrite Nat.sub_0_r. congruence.
Qed.

Lemma crawl_progress_round_trip_witness :
  ∃ run p,
    run_crawler Config.settings Samples.site_up 5 Samples.empty_db false
    = Some run
    ∧ returned run = Returns p
    ∧ StorageOps.get_crawl_progress true (ls_db (run_state run)) = Some p.
Proof.
  assert (is_Some (run_crawler Config.settings Samples.site_up 5
                     Samples.empty_db false))
    as [run Hrun] by (vm_compute; eauto).
  assert (∃ p, returned run = Returns p) as [p Hp].
  { revert Hrun. vm_compute. intros [= <-]. by eexists. }
  exists run, p. split; [exact Hrun |]. split; [exact Hp |].
  destruct (crawl_progress_round_trip Config.settings Samples.site_up 5
              Samples.empty_db false run Hrun) as (_ & Hget).
  destruct (Hget p Hp) as (_ & Hlast). apply Hlast. reflexivity.
Defined.

(** X22.  A resumed run that follows a run which ended with status
    success, over the same discovered addresses, hands nothing to
    [scrape_book] and leaves the books as they are; the snapshot it
    returns counts every discovered address in its total and none as
    completed. *)
Theorem rerun_after_success_scrapes_nothing (s : Config.Settings)
    (w w' : World) (fuel fuel' : nat) (db : Database) (resume : bool)
    (run1 : CrawlRun) (p1 : CrawlProgress) (D : list string) :
  run_crawler s w fuel db resume = Some run1 →
  returned run1 = Returns p1 →
  status p1 = SUCCESS →
  get_all_book_urls w (BookScraper_init s) fuel = Some (Returns D) →
  connect_ok w' = true →
  get_all_book_urls w' (BookScraper_init s) fuel' = Some (Returns D) →
  ∃ run2 p2,
    run_crawler s w' fuel' (ls_db (run_state run1)) true = Some run2
    ∧ ls_scraped (run_state run2) = []
    ∧ books (ls_db (run_state run2)) = books (ls_db (run_state run1))
    ∧ returned run2 = Returns p2
    ∧ total_pages p2 = length D
    ∧ completed_pages p2 = 0
    ∧ failed_pages p2 = []
    ∧ status p2 = SUCCESS.
Proof.
  intros Hrun1 Hp1 Hok HD Hconn HD'.
  apply run_crawler_cases_db in Hrun1 as [[Hr _] | (D1 & _ & HD1 & ->)];
    [congruence |].
  assert (D1 = D) as -> by congruence.
  set (db1 := ls_db (run_state (crawl_discovered w (BookScraper_init s) db
                                  resume D))).
  (* every discovered address is stored after the first run *)
  assert (∀ url, url ∈ D → url ∈ dom (books db1)) as Hstored.
  { destruct (crawl_discovered_accounted w (BookScraper_init s) db resume D)
      as (Hacc & _); [done |].
    destruct (crawl_discovered_frame w (BookScraper_init s) db resume D)
      as (Hdom & _).
    destruct (crawl_discovered_spec w (BookScraper_init s) db resume D)
      as (_ & _ & _ & Hscr).
    destruct (crawl_discovered_final w (BookScraper_init s) db resume D)
      as (st & p & Hst & Hret & Hp).
    cbn zeta in *. fold db1 in Hacc, Hdom.
    assert (failed_urls
              (ls_self (run_state (crawl_discovered w (BookScraper_init s) db
                                     resume D))) = ∅) as Hnone.
    { rewrite Hst.
      destruct (save_crawl_progress_frame w st p) as (-> & _).
      rewrite Hret in Hp1. injection Hp1 as <-. subst p.
      unfold make_progress in Hok. simpl in Hok.
      case_bool_decide as Hf; [done |].
      destruct (decide (failed_urls (ls_self st) = ∅)); done. }
    intros url Hurl.
    destruct (decide (url ∈ ls_scraped
                (run_state (crawl_discovered w (BookScraper_init s) db
                              resume D)))) as [Hin | Hout].
    - destruct (Hacc url Hin) as [Hfail | ?]; [| done].
      rewrite Hnone in Hfail. by apply not_elem_of_empty in Hfail.
    - rewrite Hscr in Hout. destruct resume; [| done].
      apply Hdom. destruct (decide (url ∈ dom (books db))); [done |].
      exfalso. apply Hout. by apply list_elem_of_filter. }
  assert (filter (λ url, url ∉ dom (books db1)) D = []) as Hnil.
  { revert Hstored. generalize db1. clear. intros d.
    induction D as [| url D IH]; intros Hstored; [done |].
    rewrite filter_cons_False.
    - apply IH. intros url' Hin. apply Hstored. by right.
    - intros Hout. apply Hout, Hstored. left. }
  unfold run_crawler, crawl_all_books. rewrite Hconn, HD'.
  destruct (crawl_discovered_spec w' (BookScraper_init s) db1 true D)
    as (Hret & _ & _ & Hscr).
  destruct (crawl_discovered_frame w' (BookScraper_init s) db1 true D)
    as (_ & _ & Hframe).
  cbn zeta in *. rewrite Hnil in *.
  eexists _, _. split; [reflexivity |].
  split; [exact Hscr |]. split.
  { apply map_eq. intros url. apply Hframe, not_elem_of_nil. }
  split; [exact Hret |]. unfold snapshot_after. simpl.
  rewrite take_nil. simpl. by repeat split.
Qed.

Lemma rerun_after_success_scrapes_nothing_witness :
  ∃ run1 run2 p2,
    run_crawler Config.settings MoreSamples.site_complete 5 Samples.empty_db
      false = Some run1
    ∧ run_crawler Config.settings MoreSamples.site_complete 5
        (ls_db (run_state run1)) true
      = Some run2
    ∧ ls_scraped (run_state run2) = []
    ∧ returned run2 = Returns p2
    ∧ total_pages p2 = 3
    ∧ completed_pages p2 = 0.
Proof.
  assert (is_Some (run_crawler Config.settings MoreSamples.site_complete 5
                     Samples.empty_db false))
    as [run1 Hrun1] by (vm_compute; eauto).
  assert (∃ p1, returned run1 = Returns p1 ∧ status p1 = SUCCESS)
    as (p1 & Hp1 & Hok).
  { revert Hrun1. vm_compute. intros [= <-]. by eexists. }
  destruct (rerun_after_success_scrapes_nothing Config.settings
              MoreSamples.site_complete MoreSamples.site_complete 5 5
              Samples.empty_db false run1 p1 Samples.three_books
              Hrun1 Hp1 Hok)
    as (run2 & p2 & Hrun2 & Hscr & _ & Hret & Htotal & Hdone & _).
  - vm_compute. reflexivity.
  - reflexivity.
  - vm_compute. reflexivity.
  - by exists run1, run2, p2.
Defined.

(** X23.  The batches of [crawl_all_books] partition the task list: put
    end to end they give the list back, none is empty, none has more than
    fifty tasks, and there are as many as the length divided by fifty,
    rounded up. *)
Theorem batches_partition {A} (tasks : list A) :
  let batches :=
    (λ i, py_slice tasks i (i + batch_size))
      <$> py_range 0 (length tasks) batch_size in
  concat batches = tasks
  ∧ Forall (λ batch, 0 < length batch ≤ batch_size) batches
  ∧ length batches = (length tasks + batch_size - 1) / batch_size.
Proof.
  assert (batch_size = 50) as Hbs by reflexivity.
  cbn zeta. unfold py_range, py_slice. rewrite <- list_fmap_compose.
  rewrite Nat.sub_0_r.
  set (m := (length tasks + batch_size - 1) / batch_size).
  assert (length tasks ≤ m * 50 ∧ (0 < m → (m - 1) * 50 < length tasks))
    as [Hcover Htight].
  { unfold m. rewrite Hbs.
    pose proof (Nat.div_mod_eq (length tasks + 50 - 1) 50) as Hdiv.
    pose proof (Nat.mod_upper_bound (length tasks + 50 - 1) 50). lia. }
  split; [| split].
  - transitivity (take (m * 50) tasks); [| by apply take_ge].
    clear Hcover Htight. generalize m. clear m. intros m.
    induction m as [| m IH]; [done |].
    rewrite seq_S, fmap_app, concat_app, IH. simpl.
    rewrite app_nil_r, Hbs.
    replace (m * 50 + 50 - m * 50) with 50 by lia.
    rewrite take_take_drop. f_equal. lia.
  - apply Forall_fmap, Forall_forall. intros k Hk%elem_of_seq. simpl.
    rewrite length_take, length_drop, Hbs. lia.
  - by rewrite length_fmap, length_seq.
Qed.

(** ** More on the permit pool *)

(** A pool that keeps the permit discipline and has at least one permit in
    all is never stuck. *)
Lemma pool_ok_progress (K : nat) (s : pool) :
  0 < K → pool_ok K s →
  Forall (λ t, todo t = []) (tasks s) ∨ ∃ i s', step i s = Some s'.
Proof.
  intros HK [Hsum Hall].
  destruct (decide (Forall (λ t, todo t = []) (tasks s))) as [| Hbusy];
    [by left | right].
  destruct (decide (permits s = 0)) as [Hzero | Hfree].
  - (* every permit is out: some holder can go on *)
    unfold holding_count in Hsum.
    destruct (filter (λ t, holding t = true) (tasks s)) as [| t held] eqn:Hf;
      [simpl in Hsum; lia |].
    assert (t ∈ filter (λ t, holding t = true) (tasks s)) as Hin
      by (rewrite Hf; left).
    apply list_elem_of_filter in Hin as [Hheld Hin].
    apply list_elem_of_lookup in Hin as [i Hi].
    pose proof (Forall_lookup_1 _ _ _ _ Hall Hi) as Hb. simpl in Hb.
    rewrite Hheld in Hb. exists i. unfold step. rewrite Hi. simpl.
    destruct (todo t) as [| e rest]; [done |].
    destruct e; simpl in Hb; try (by destruct Hb); by eexists.
  - (* a permit is free: any unfinished coroutine can go on *)
    apply not_Forall_Exists in Hbusy; [| apply _].
    apply Exists_exists in Hbusy as (t & Hin & Htodo). simpl in Htodo.
    apply list_elem_of_lookup in Hin as [i Hi].
    exists i. unfold step. rewrite Hi. simpl.
    destruct (todo t) as [| e rest]; [done |].
    destruct e; try (by eexists).
    rewrite bool_decide_eq_false_2 by done. by eexists.
Qed.

(** X24.  With at least one permit the fetches never deadlock: in every
    state the event loop can reach, either every fetch has finished or
    some coroutine can take its next step. *)
Theorem fetches_never_deadlock (K : nat) (self : BookScraper)
    (calls : list (Client * string)) (schedule : list nat) (s : pool) :
  0 < K →
  run schedule (init K (fetches self calls)) = Some s →
  Forall (λ t, todo t = []) (tasks s) ∨ ∃ i s', step i s = Some s'.
Proof.
  intros HK Hrun. apply (pool_ok_progress K); [done |].
  eapply run_pool_ok; [apply init_pool_ok | exact Hrun].
Qed.

Lemma fetches_never_deadlock_witness :
  ∃ s,
    run Samples.overlap_schedule (init 1 Samples.two_fetches) = Some s
    ∧ (Forall (λ t, todo t = []) (tasks s) ∨ ∃ i s', step i s = Some s').
Proof.
  assert (is_Some (run Samples.overlap_schedule (init 1 Samples.two_fetches)))
    as [s Hs] by (vm_compute; eauto).
  exists s. split; [exact Hs |].
  apply (fetches_never_deadlock 1 (BookScraper_init Config.settings)
           [(Samples.unreachable,
             "https://books.toscrape.com/catalogue/a/index.html");
            (Samples.unreachable,
             "https://books.toscrape.com/catalogue/b/index.html")]
           Samples.overlap_schedule s); [lia | exact Hs].
Defined.

(** X25.  With a concurrency of zero no fetch ever takes a step: every
    coroutine starts by asking for the permit, and none is ever free. *)
Theorem no_permit_no_request (self : BookScraper)
    (calls : list (Client * string)) :
  (∀ i, step i (init 0 (fetches self calls)) = None)
  ∧ ∀ schedule, schedule ≠ [] →
                run schedule (init 0 (fetches self calls)) = None.
Proof.
  assert (∀ i, step i (init 0 (fetches self calls)) = None) as Hstep.
  { intros i. unfold step, init, fetches. simpl.
    rewrite !list_lookup_fmap.
    destruct (calls !! i) as [[client url] |]; simpl; [| done].
    rewrite fetch_with_retry_eqn.
    destruct (client url 0) as [text | e |]; simpl; try done.
    by destruct (decide (0 < max_retries self)). }
  split; [done |].
  intros [| i schedule] Hne; [done |]. simpl. by rewrite Hstep.
Qed.

(** ** Discovery *)

(** The listing pages the loop went through from its [k]-th turn on, each
    with the text it was served. *)
Lemma pages_loop_pages (w : World) (self : BookScraper) (fuel k : nat)
    (current_url : option string) (all_book_urls D : list string) :
  pages_loop w self fuel k current_url all_book_urls = Some (Returns D) →
  ∃ pages : list (string * string),
    D = all_book_urls
        ++ concat ((λ p, extract_book_links w p.2 p.1) <$> pages)
    ∧ length pages ≤ fuel
    ∧ (∀ j p, pages !! j = Some p →
              (fetch_with_retry self (page_client w (k + j)) p.1 0).1
              = Returns (Some p.2)
              ∧ p.2 ≠ String.EmptyString)
    ∧ (∀ p, head pages = Some p → current_url = Some p.1)
    ∧ (∀ j p q, pages !! j = Some p → pages !! S j = Some q →
                extract_next_page_url w p.2 p.1 = Some q.1).
Proof.
  revert k current_url all_book_urls.
  induction fuel as [| fuel IH]; intros k [url |] acc; simpl.
  all: try (intros [= <-]; exists []; simpl; rewrite app_nil_r;
            repeat split; try done; lia).
  - case_bool_decide; [| done].
    intros [= <-]. exists []. simpl. rewrite app_nil_r.
    repeat split; try done.
  - case_bool_decide.
    { intros [= <-]. exists []. simpl. rewrite app_nil_r.
      repeat split; try done. lia. }
    destruct (fetch_with_retry self (page_client w k) url 0).1
      as [[text |] |] eqn:Hfetch; simpl; try done.
    + case_bool_decide as Htext.
      { intros [= <-]. exists []. simpl. rewrite app_nil_r.
        repeat split; try done. lia. }
      intros (pages & -> & Hlen & Hpages & Hhead & Hchain)%IH.
      exists ((url, text) :: pages). simpl. rewrite <- app_assoc.
      split; [done |]. split; [lia |]. split; [| split].
      * intros j p Hp. destruct j as [| j]; simpl in Hp.
        -- injection Hp as <-. simpl. by rewrite Nat.add_0_r.
        -- replace (k + S j) with (S k + j) by lia. by apply Hpages.
      * by intros p [= <-].
      * intros j p q Hp Hq. destruct j as [| j]; simpl in Hp, Hq.
        -- injection Hp as <-. simpl. apply Hhead. by destruct pages.
        -- by eapply Hchain.
    + intros [= <-]. exists []. simpl. rewrite app_nil_r.
      repeat split; try done. lia.
Qed.

Lemma elem_of_concat_lists {A} (x : A) (ls : list (list A)) :
  x ∈ concat ls → ∃ l, x ∈ l ∧ l ∈ ls.
Proof.
  induction ls as [| l ls IH]; simpl; [by intros ?%elem_of_nil |].
  intros [Hin | Hin]%elem_of_app.
  - exists l. split; [done | left].
  - destruct (IH Hin) as (l' & ? & ?). exists l'. split; [done | by right].
Qed.

(** X26.  Every address discovery returns was linked from a listing page
    that was fetched with a non-empty text: the result is the links of the
    pages visited, in order, where the first page is [catalogue/page-1.html]
    under the base address and each further page is the one the page
    before names as next. *)
Theorem discovery_sound (w : World) (self : BookScraper) (fuel : nat)
    (D : list string) :
  get_all_book_urls w self fuel = Some (Returns D) →
  ∃ pages : list (string * string),
    D = concat ((λ p, extract_book_links w p.2 p.1) <$> pages)
    ∧ length pages ≤ fuel
    ∧ (∀ j p, pages !! j = Some p →
              (fetch_with_retry self (page_client w j) p.1 0).1
              = Returns (Some p.2)
              ∧ p.2 ≠ String.EmptyString)
    ∧ (∀ p, head pages = Some p →
            p.1 = urljoin w (base_url self) "catalogue/page-1.html")
    ∧ (∀ j p q, pages !! j = Some p → pages !! S j = Some q →
                extract_next_page_url w p.2 p.1 = Some q.1)
    ∧ (∀ url, url ∈ D →
              ∃ p, p ∈ pages ∧ url ∈ extract_book_links w p.2 p.1).
Proof.
  unfold get_all_book_urls.
  intros (pages & -> & Hlen & Hpages & Hhead & Hchain)%pages_loop_pages.
  exists pages. simpl.
  split; [done |]. split; [done |]. split; [done |]. split; [| split].
  - intros p Hp. apply Hhead in Hp. by injection Hp as <-.
  - done.
  - intros url (links & Hurl & Hlinks)%elem_of_concat_lists.
    apply list_elem_of_fmap in Hlinks as (p & -> & Hp). by exists p.
Qed.

Lemma discovery_sound_witness :
  ∃ pages : list (string * string),
    Samples.three_books
    = concat ((λ p, extract_book_links Samples.site_up p.2 p.1) <$> pages)
    ∧ length pages ≤ 5.
Proof.
  destruct (discovery_sound Samples.site_up (BookScraper_init Config.settings)
              5 Samples.three_books) as (pages & Hpages & Hlen & _).
  - vm_compute. reflexivity.
  - by exists pages.
Defined.

(** ** The change feed of the API *)

(** X27.  One page of the change feed, for a page number of at least one
    and a page size from 1 to 100: the total is the number of log entries
    that match the query; the page holds entries that match, newest first,
    as many as the page size allows of those left after the pages before;
    the page count is the least number of pages that hold the total; a
    page after the last is empty and a page up to the last is not. *)
Theorem get_changes_page (start_date end_date : option Z)
    (change_type_filter : option string) (page page_size : nat)
    (db : Database) :
  1 ≤ page → 1 ≤ page_size ≤ 100 →
  let r := Routes.get_changes start_date end_date change_type_filter page
             page_size db in
  Routes.resp_total r
  = length (filter (Routes.changes_query start_date end_date
                      change_type_filter) (change_log db))
  ∧ length (Routes.resp_items r)
    = (Routes.resp_total r - (page - 1) * page_size) `min` page_size
  ∧ length (Routes.resp_items r) ≤ 100
  ∧ (∀ change, change ∈ Routes.resp_items r →
               change ∈ change_log db
               ∧ Routes.changes_query start_date end_date change_type_filter
                   change)
  ∧ StronglySorted Reports.newer (Routes.resp_items r)
  ∧ Routes.resp_total r ≤ Routes.resp_total_pages r * page_size
  ∧ (Routes.resp_total_pages r - 1) * page_size
    < Routes.resp_total r + (if Routes.resp_total r is 0 then 1 else 0)
  ∧ (Routes.resp_total_pages r < page ↔ Routes.resp_items r = []).
Proof.
  intros Hpage Hsize. unfold Routes.get_changes. simpl.
  set (matching := filter _ (change_log db)).
  set (sorted := merge_sort Reports.newer matching).
  assert (length sorted = length matching) as Hlen
    by (unfold sorted; by rewrite merge_sort_Permutation).
  assert (StronglySorted Reports.newer sorted) as Hsorted
    by apply (@StronglySorted_merge_sort _ Reports.newer _
                newer_trans newer_total).
  set (total := length sorted) in *.
  set (pages := (total + page_size - 1) / page_size).
  assert (total ≤ pages * page_size
          ∧ (pages - 1) * page_size < total + (if total is 0 then 1 else 0))
    as [Hcover Htight].
  { unfold pages.
    pose proof (Nat.div_mod_eq (total + page_size - 1) page_size) as Hdiv.
    pose proof (Nat.mod_upper_bound (total + page_size - 1) page_size).
    destruct total; nia. }
  split; [done |].
  assert (length (take page_size (drop ((page - 1) * page_size) sorted))
          = (total - (page - 1) * page_size) `min` page_size) as Hitems.
  { rewrite length_take, length_drop. fold total. lia. }
  split; [done |]. split; [lia |]. split; [| split; [| split; [| split]]].
  - intros change Hin%subseteq_take%subseteq_drop.
    unfold sorted in Hin. rewrite merge_sort_Permutation in Hin.
    by apply list_elem_of_filter in Hin as [? ?].
  - rewrite <- (take_drop ((page - 1) * page_size) sorted) in Hsorted.
    apply StronglySorted_app_1_r in Hsorted.
    rewrite <- (take_drop page_size
                  (drop ((page - 1) * page_size) sorted)) in Hsorted.
    by apply StronglySorted_app_1_l in Hsorted.
  - done.
  - done.
  - rewrite <- length_zero_iff_nil, Hitems. split.
    + intros Hlast.
      assert (pages * page_size ≤ (page - 1) * page_size)
        by (apply Nat.mul_le_mono_r; lia).
      lia.
    + intros Hnone.
      assert (total ≤ (page - 1) * page_size) as Hle by lia.
      destruct (decide (pages < page)) as [| Hge]; [done |].
      assert ((page - 1) * page_size ≤ (pages - 1) * page_size)
        by (apply Nat.mul_le_mono_r; lia).
      destruct total; [| lia].
      unfold pages in Hge. rewrite Nat.div_small in Hge by lia. lia.
Qed.

Lemma get_changes_page_witness :
  length (Routes.resp_items
            (Routes.get_changes (Some 2%Z) None (Some "price_change") 2 2
               MoreSamples.five_changes))
  = 2.
Proof.
  destruct (get_changes_page (Some 2%Z) None (Some "price_change") 2 2
              MoreSamples.five_changes) as (Htotal & Hlen & _);
    [lia | lia |].
  rewrite Hlen, Htotal. vm_compute. reflexivity.
Defined.

(** ** Running a job by name *)

(** X28.  Whatever job is run by name, the change log is left as it was,
    no report is written, no alert is sent and every stored book is kept
    as it is; a name other than the two known ones changes nothing at
    all, and so does the change-detection job. *)
Theorem run_job_now_effects (s : Config.Settings) (w : World) (fuel : nat)
    (now : Z) (stamp : string) (dump csv : list ChangeLog → string)
    (enable_email_alerts : bool) (alert_email job_name : string)
    (db db' : Database) (files files' : Reports.Files)
    (events : list Jobs.job_event) :
  SchedulerManager.run_job_now s w fuel now stamp dump csv
    enable_email_alerts alert_email job_name db files
  = Some (db', files', events) →
  change_log db' = change_log db
  ∧ files' = files
  ∧ events = []
  ∧ (∀ url b, books db !! url = Some b → books db' !! url = Some b)
  ∧ (job_name ≠ "daily_crawl" → db' = db).
Proof.
  unfold SchedulerManager.run_job_now, Jobs.daily_crawl_job.
  case_bool_decide as Hcrawl.
  - destruct (run_crawler s w fuel db true) as [run |] eqn:Hrun; simpl;
      [| done].
    intros [= <- <- <-].
    apply run_crawler_cases_db in Hrun as [[_ ->] | (D & _ & _ & ->)];
      [done |].
    destruct (crawl_discovered_frame w (BookScraper_init s) db true D)
      as (_ & Hlog & Hframe).
    cbn zeta in *. split; [done |]. split; [done |]. split; [done |].
    split; [| done].
    intros url b Hb. rewrite Hframe; [done |].
    intros [Hout _]%list_elem_of_filter. apply Hout.
    apply elem_of_dom. by exists b.
  - case_bool_decide as Hdetect.
    + unfold Jobs.change_detection_job, ChangeDetector.run_change_detection.
      simpl. by intros [= <- <- <-].
    + by intros [= <- <- <-].
Qed.

Lemma run_job_now_effects_witness :
  ∃ db',
    SchedulerManager.run_job_now Config.settings Samples.site_up 5 0
      "20240101_000000" (λ _, "[]") (λ _, String.EmptyString) true
      "ops@example.com" "daily_crawl" Samples.first_book_stored ∅
    = Some (db', ∅, [])
    ∧ change_log db' = [].
Proof.
  assert (∃ db',
            SchedulerManager.run_job_now Config.settings Samples.site_up 5 0
              "20240101_000000" (λ _, "[]") (λ _, String.EmptyString) true
              "ops@example.com" "daily_crawl" Samples.first_book_stored ∅
            = Some (db', ∅, [])) as [db' Hjob].
  { vm_compute. by eexists. }
  exists db'. split; [exact Hjob |].
  by destruct (run_job_now_effects _ _ _ _ _ _ _ _ _ _ _ _ _ _ _ Hjob)
    as (-> & _).
Defined.
